(** * skiff-dispatcher: the Dispatcher Node

    A shallow embedding of the dispatcher node (the revision of the node
    source that defines [ok], [attachRemoteCall], [peerOnline] and
    [randomPeerOrSelf]) together with the properties its specification
    states about it.

    The node is single threaded: every method runs to completion before
    the next one starts.  A method is therefore a function from the node
    state to a new node state, together with the list of things the method
    did to its collaborators (reads and writes of the gossip cluster,
    scheduled immediates, handler applications, RPC invocations).  Calls
    that leave the dispatcher (user callbacks, registered handlers, the
    transport client) are recorded as effects and not followed. *)

From stdpp Require Import gmap strings list pretty.


(** ** JavaScript values *)

(** The values that flow through the dispatcher: resource ids and types,
    argument payloads, stored values, peer ids.  All of them convert to a
    string.  Numbers are restricted to the safe integers and [NaN] (see
    [representable]); an object is known by its address and by the string
    its [toString] method returns (["[object Object]"] for a plain
    object). *)
Inductive jsval : Type :=
| JUndefined
| JNull
| JBool (b : bool)
| JNum (z : Z)
| JNaN
| JStr (s : string)
| JObj (addr : nat) (rendering : string).



(** [typeof v === 'string'] *)
Definition is_string (v : jsval) : bool :=
  match v with JStr _ => true | _ => false end.

(** ToBoolean, the truthiness used by [!v] and [if (v)]. *)
Definition truthy (v : jsval) : bool :=
  match v with
  | JUndefined | JNull | JNaN => false
  | JBool b => b
  | JNum z => negb (z =? 0)%Z
  | JStr s => negb (String.eqb s "")
  | JObj _ _ => true
  end.

(** [a === b]: no coercion, [NaN] differs from itself, objects are compared
    by address. *)
Definition strict_eq (a b : jsval) : bool :=
  match a, b with
  | JUndefined, JUndefined => true
  | JNull, JNull => true
  | JBool x, JBool y => Bool.eqb x y
  | JNum x, JNum y => (x =? y)%Z
  | JStr x, JStr y => String.eqb x y
  | JObj x _, JObj y _ => (x =? y)%nat
  | _, _ => false
  end.

(** ToString of a [representable] value: a safe integer prints as its
    decimal digits, an object as its [toString] says. *)
Definition ToString (v : jsval) : string :=
  match v with
  | JUndefined => "undefined"
  | JNull => "null"
  | JBool true => "true"
  | JBool false => "false"
  | JNum z => pretty z
  | JNaN => "NaN"
  | JStr s => s
  | JObj _ r => r
  end.

(** Anything a function can be handed: one of the values above, or an
    object whose conversion to a string throws because it has neither a
    usable [toString] nor a usable [valueOf] (such as
    [Object.create(null)]). *)
Inductive js_any : Type :=
| Converts (v : jsval)
| Unprintable (addr : nat).
Coercion Converts : jsval >-> js_any.
(* A list literal is read against the type expected of it, so that a list of
   values can stand where a list of [js_any] is expected. *)
Arguments cons {A}%_type_scope & a l%_list_scope.

(** ** Errors raised or reported by the dispatcher *)

Inductive Error : Type :=
| ArgumentsEmpty                       (* 'arguments must not be empty' *)
| ResourceIdNotTruthyString            (* 'resourceId must be a truthy string' *)
| RemoteCallNotAllowed (resourceType : jsval)
                                       (* 'remote call ' + resourceType + ' is not allowed' *)
| ValueUndefined                       (* 'value cant be set to undefined' *)
| MethodNotFound (method : string)     (* 'Method not found: ' + method *)
| NoRemoteMetadata (node : jsval)      (* 'could not find remote metadata for URL ' + node *)
| AlreadyDefined (name : string)       (* 'Function ' + name + ' is already defined' *)
| TypeError (what : string).           (* raised by the runtime, not by a throw statement *)

Definition message (e : Error) : string :=
  match e with
  | ArgumentsEmpty => "arguments must not be empty"
  | ResourceIdNotTruthyString => "resourceId must be a truthy string"
  | RemoteCallNotAllowed t => "remote call " +:+ ToString t +:+ " is not allowed"
  | ValueUndefined => "value cant be set to undefined"
  | MethodNotFound m => "Method not found: " +:+ m
  | NoRemoteMetadata n => "could not find remote metadata for URL " +:+ ToString n
  | AlreadyDefined n => "Function " +:+ n +:+ " is already defined"
  | TypeError w => w
  end.

(** ** Array.prototype.join *)

(** An element that is [undefined] or [null] contributes the empty string,
    any other element its ToString; the conversion of an object that has
    none throws. *)
Definition join_element (v : js_any) : Error + string :=
  match v with
  | Converts JUndefined | Converts JNull => inr ""
  | Converts v => inr (ToString v)
  | Unprintable _ => inl (TypeError "Cannot convert object to primitive value")
  end.

(** The loop of [join]: [R] is the string built so far, every further
    element appends the separator and then the element. *)
Fixpoint join_from (sep : string) (R : string) (rest : list js_any) : Error + string :=
  match rest with
  | [] => inr R
  | e :: rest' =>
      match join_element e with
      | inl err => inl err
      | inr next => join_from sep (R +:+ sep +:+ next) rest'
      end
  end.

Definition Array_join (sep : string) (arr : list js_any) : Error + string :=
  match arr with
  | [] => inr ""
  | e0 :: rest =>
      match join_element e0 with
      | inl err => inl err
      | inr first => join_from sep first rest
      end
  end.

(** ** Node.prototype.ok *)

(** [for (var i = 0; i < length; i++) { arr[i] = arguments[i]; }], with
    [todo] the number of iterations left ([length - i]).  Reading past the
    end of [arguments] gives [undefined]. *)
Fixpoint ok_copy (todo : nat) (i : nat) (arguments arr : list js_any) : list js_any :=
  match todo with
  | O => arr
  | S todo' =>
      ok_copy todo' (S i) arguments
        (<[i := default (Converts JUndefined) (arguments !! i)]> arr)
  end.

(** [ok] throws on an empty argument list; otherwise it copies the arguments
    into [new Array(length)] and joins the copy with ["~"], which throws
    when an argument has no conversion to a string. *)
Definition ok (arguments : list js_any) : Error + string :=
  let length := length arguments in
  if (length =? 0)%nat then inl ArgumentsEmpty
  else
    let arr := replicate length (Converts JUndefined) in
    let arr := ok_copy length 0 arguments arr in
    Array_join "~" arr.

(** The specification's reading of the result, written on its own: the
    text of each argument - a string as it is, nothing for [undefined] and
    [null], the usual text of a boolean, of a safe integer, of [NaN] and of
    an object - with ["~"] between neighbours. *)
Definition spec_text (v : jsval) : string :=
  match v with
  | JStr s => s
  | JUndefined => ""
  | JNull => ""
  | JBool b => if b then "true" else "false"
  | JNum z => pretty z
  | JNaN => "NaN"
  | JObj _ text => text
  end.

Fixpoint joined_with (sep : string) (parts : list string) : string :=
  match parts with
  | [] => ""
  | [p] => p
  | p :: ps => p +:+ sep +:+ joined_with sep ps
  end.


(** ** Property lookup on plain objects *)

(** [_allowedRemoteCalls] and [_remotes] are plain objects used as maps.
    Reading [obj[key]] finds the object's own property first and falls back
    to what every plain object inherits from [Object.prototype]. *)
Definition Object_prototype_names : list string :=
  [ "constructor"; "hasOwnProperty"; "isPrototypeOf"; "propertyIsEnumerable";
    "toLocaleString"; "toString"; "valueOf"; "__proto__";
    "__defineGetter__"; "__defineSetter__"; "__lookupGetter__"; "__lookupSetter__" ].

Inductive property (A : Type) : Type :=
| Own (v : A)        (* set on the object itself *)
| Inherited          (* a member of Object.prototype: a function or object *)
| Absent.            (* reading it gives undefined *)
Arguments Own {A} v.
Arguments Inherited {A}.
Arguments Absent {A}.

(** [obj[key]]: the key is converted to a string first. *)
Definition get_property {A : Type} (obj : gmap string A) (key : jsval) : property A :=
  match obj !! ToString key with
  | Some v => Own v
  | None =>
      if bool_decide (ToString key ∈ Object_prototype_names) then Inherited else Absent
  end.

(** What a property of the node or of its prototype holds, as far as
    [typeof] and [.apply] can tell. *)
Inductive member : Type :=
| Function_member      (* a function *)
| Undefined_member     (* the value undefined *)
| Other_member.        (* anything else: an object, a string, ... *)

(** ** Callbacks, effects and the node state *)

(** A function handed to the dispatcher by its caller ([next]), or the
    function [callbackQueue.add] returned for a key. *)
Inductive callback : Type :=
| Next (f : nat)
| Queued (key : string).

(** What a callback is called with: node-style, an error or values. *)
Inductive argument : Type :=
| Val (v : jsval)
| Err (e : Error).

Inductive effect : Type :=
| ClusterGet (key : string)                        (* cluster.get(key) *)
| ClusterSet (key : string) (value : jsval)        (* cluster.set(key, value) *)
| SetImmediate (next : callback) (args : list argument)
                                                   (* setImmediate(next, ...args) *)
| SetImmediateRemoteCall (node : jsval) (method : string) (args : list jsval) (next : callback)
                                                   (* setImmediate(this._remoteCall, node, method, args, next) *)
| Apply (method : string) (args : list jsval) (cb : callback)
                                                   (* this[method].apply(this, args) is evaluated,
                                                      args ending with cb *)
| Call (f : callback) (args : list argument)       (* f(...args), f a function of the caller *)
| ClientApply (peer : nat) (method : string) (args : list jsval) (next : callback)
                                                   (* client[method].apply(client, args), args ending with next *)
| TransportConnect (peer : nat) (methods : list string) (hostname port : jsval)
                                                   (* new Peer(methods, hostname, port) *)
| GossipRemovePeer (id : string).                  (* gossip.removePeer(id) *)

(** The closure [invoke] registered by [remote.once('connect', invoke)]; it
    captures [method], [args] and [next] of the [_remoteCall] it belongs to. *)
Record invoke_closure : Type := {
  invoke_method : string;
  invoke_args : list jsval;
  invoke_next : callback
}.

(** A connection returned by the transport's [connect]. *)
Record Peer : Type := {
  client_methods : list string;        (* the remote methods the client exposes *)
  connected : bool;
  connect_listeners : list invoke_closure
}.

Record Node : Type := {
  id : string;
  _allowedRemoteCalls : gmap string jsval;
  prototype : gmap string member;      (* Node.prototype, with what it inherits from EventEmitter *)
  _remoteCallMethods : list string;
  cluster : gmap string jsval;         (* gossip.cluster *)
  callbackQueue : gmap string (list callback);
  _remotes : gmap string (option nat); (* peer id to connection, None for null *)
  _remoteIds : list string;
  peers : list Peer;                   (* the connection objects, by reference *)
  peerMeta : jsval -> option (jsval * jsval)   (* skiff.peerMeta: hostname and port *)
}.

Definition set_allowed (a : gmap string jsval) (p : gmap string member) (n : Node) : Node :=
  {| id := id n; _allowedRemoteCalls := a; prototype := p;
     _remoteCallMethods := _remoteCallMethods n; cluster := cluster n;
     callbackQueue := callbackQueue n; _remotes := _remotes n;
     _remoteIds := _remoteIds n; peers := peers n; peerMeta := peerMeta n |}.

Definition set_cluster (c : gmap string jsval) (n : Node) : Node :=
  {| id := id n; _allowedRemoteCalls := _allowedRemoteCalls n;
     prototype := prototype n;
     _remoteCallMethods := _remoteCallMethods n; cluster := c;
     callbackQueue := callbackQueue n; _remotes := _remotes n;
     _remoteIds := _remoteIds n; peers := peers n; peerMeta := peerMeta n |}.

Definition set_callbackQueue (q : gmap string (list callback)) (n : Node) : Node :=
  {| id := id n; _allowedRemoteCalls := _allowedRemoteCalls n;
     prototype := prototype n;
     _remoteCallMethods := _remoteCallMethods n; cluster := cluster n;
     callbackQueue := q; _remotes := _remotes n;
     _remoteIds := _remoteIds n; peers := peers n; peerMeta := peerMeta n |}.

Definition set_remotes (r : gmap string (option nat)) (ids : list string)
    (ps : list Peer) (n : Node) : Node :=
  {| id := id n; _allowedRemoteCalls := _allowedRemoteCalls n;
     prototype := prototype n;
     _remoteCallMethods := _remoteCallMethods n; cluster := cluster n;
     callbackQueue := callbackQueue n; _remotes := r;
     _remoteIds := ids; peers := ps; peerMeta := peerMeta n |}.

(** ** The monad of node methods: state, effect log, exceptions *)

(** How a call ends: it returns, it throws, or it has handed control to a
    function that is not part of the dispatcher ([this[resourceType]]), in
    which case what happens next, to the call and to the node, is that
    function's doing and is not followed here. *)
Inductive completion (A : Type) : Type :=
| Normal (a : A)
| Throw (e : Error)
| Applied.
Arguments Normal {A} a.
Arguments Throw {A} e.
Arguments Applied {A}.

Definition M (A : Type) : Type := Node -> completion A * Node * list effect.

Definition ret {A : Type} (a : A) : M A := fun n => (Normal a, n, []).

Definition bind {A B : Type} (m : M A) (k : A -> M B) : M B :=
  fun n =>
    match m n with
    | (Normal a, n1, log1) =>
        match k a n1 with
        | (r, n2, log2) => (r, n2, log1 ++ log2)
        end
    | (Throw e, n1, log1) => (Throw e, n1, log1)
    | (Applied, n1, log1) => (Applied, n1, log1)
    end.

Notation "x <- m ;; k" := (bind m (fun x => k))
  (at level 100, m at next level, right associativity).
Notation "m ;;; k" := (bind m (fun _ => k))
  (at level 100, right associativity).

Definition emit (e : effect) : M unit := fun n => (Normal tt, n, [e]).
Definition throw {A : Type} (e : Error) : M A := fun n => (Throw e, n, []).
Definition gets {A : Type} (f : Node -> A) : M A := fun n => (Normal (f n), n, []).
Definition modify (f : Node -> Node) : M unit := fun n => (Normal tt, f n, []).

(** Projections of a run. *)
Definition result_of {A : Type} (r : completion A * Node * list effect) : completion A := r.1.1.
Definition node_of {A : Type} (r : completion A * Node * list effect) : Node := r.1.2.
Definition log_of {A : Type} (r : completion A * Node * list effect) : list effect := r.2.

(** The first completion that is not a return, if there is one. *)
Definition first_abnormal (r1 r2 : completion unit) : completion unit :=
  match r1 with
  | Normal _ => r2
  | _ => r1
  end.

(** Running a list of calls one after the other.  The calls are separate
    entries into the node (separate callers, events, turns of the event
    loop): each runs on the node as the one before left it, however that
    one ended.  After a call that ended in [Applied] this takes the applied
    function to have returned and to have left the node alone. *)
Fixpoint sequence (ms : list (M unit)) : M unit :=
  match ms with
  | [] => ret tt
  | m :: ms' =>
      fun n =>
        match m n with
        | (r1, n1, log1) =>
            match sequence ms' n1 with
            | (r2, n2, log2) => (first_abnormal r1 r2, n2, log1 ++ log2)
            end
        end
  end.

(** ** The collaborators *)

(** [cluster.get(key)]: the stored value, [undefined] when there is none. *)
Definition cluster_get (key : string) : M jsval :=
  emit (ClusterGet key) ;;;
  gets (fun n => default JUndefined (cluster n !! key)).

(** [cluster.set(key, value)]: visible to the next local read. *)
Definition cluster_set (key : string) (value : jsval) : M unit :=
  emit (ClusterSet key value) ;;;
  modify (fun n => set_cluster (<[key := value]> (cluster n)) n).

(** Modelled from the spec: the callback-queue package (the Request
    Coalescer), a dependency whose source is not part of the repository.
    [add] creates the pending operation for a key that has none and hands
    back the function that resolves it; for a key that has one it appends
    the completion to the waiters and returns a falsy value. *)
Definition callbackQueue_add (key : string) (next : callback) : M (option callback) :=
  q <- gets callbackQueue ;;
  match q !! key with
  | None =>
      modify (set_callbackQueue (<[key := [next]]> q)) ;;;
      ret (Some (Queued key))
  | Some waiters =>
      modify (set_callbackQueue (<[key := waiters ++ [next]]> q)) ;;;
      ret None
  end.

Fixpoint emit_all (es : list effect) : M unit :=
  match es with
  | [] => ret tt
  | e :: es' => emit e ;;; emit_all es'
  end.

(** Modelled from the spec: the function [callbackQueue.add] returned.  It
    deletes the pending operation and delivers its arguments to every
    waiter in arrival order; resolving a key with no pending operation does
    nothing. *)
Definition queued_callback (key : string) (args : list argument) : M unit :=
  q <- gets callbackQueue ;;
  match q !! key with
  | Some waiters =>
      modify (set_callbackQueue (delete key q)) ;;;
      emit_all (map (fun w => Call w args) waiters)
  | None => ret tt
  end.

(** [f(...args)] for a callback the dispatcher holds. *)
Definition call (f : callback) (args : list argument) : M unit :=
  match f with
  | Next _ => emit (Call f args)
  | Queued key => queued_callback key args
  end.

(** ** Node.attachRemoteCall *)

(** [Node.prototype[name]]: what the prototype holds itself or through
    [EventEmitter.prototype], else what [Object.prototype] provides
    (functions, and an object under ["__proto__"]), else [undefined]. *)
Definition Node_prototype_member (n : Node) (name : string) : member :=
  match prototype n !! name with
  | Some m => m
  | None =>
      if bool_decide (name ∈ Object_prototype_names) then
        if String.eqb name "__proto__" then Other_member else Function_member
      else Undefined_member
  end.

(** [typeof Node.prototype[name] !== 'undefined'] *)
Definition prototype_defines (n : Node) (name : string) : bool :=
  match Node_prototype_member n name with
  | Undefined_member => false
  | _ => true
  end.

(** [Node.attachRemoteCall(name, method)], for any value of [method]. *)
Definition attachRemoteCall_with (name : string) (method : member) : M unit :=
  defined <- gets (fun n => prototype_defines n name) ;;
  if defined then throw (AlreadyDefined name)
  else
    modify (fun n =>
      set_allowed (<[name := JBool true]> (_allowedRemoteCalls n))
                  (<[name := method]> (prototype n)) n).

(** [Node.attachRemoteCall(name, method)] with a function for [method]. *)
Definition attachRemoteCall (name : string) : M unit :=
  attachRemoteCall_with name Function_member.

(** The properties the constructor sets on the node itself, the ones
    [EventEmitter.call(this)] sets among them; none of them is a function,
    and each hides what the prototype holds under its name. *)
Definition instance_properties : list string :=
  [ "domain"; "_events"; "_maxListeners";
    "id"; "_options"; "callbackQueue"; "metadata"; "skiff"; "_remotes"; "_remoteIds";
    "_remoteCallMethods"; "_transportServer"; "gossip" ].

(** [this[name]] *)
Definition this_member (n : Node) (name : string) : member :=
  if bool_decide (name ∈ instance_properties) then Other_member
  else Node_prototype_member n name.

(** How the evaluation of [this[resourceType].apply(this, args)] ends: in
    the function when there is one, in a [TypeError] when there is none
    (the wording of the error is the engine's). *)
Definition apply_completion (n : Node) (resourceType : jsval) : completion unit :=
  match this_member n (ToString resourceType) with
  | Function_member => Applied
  | Undefined_member => Throw (TypeError "Cannot read property 'apply' of undefined")
  | Other_member => Throw (TypeError "this[resourceType].apply is not a function")
  end.

Definition applied (resourceType : jsval) : M unit :=
  fun n => (apply_completion n resourceType, n, []).

(** ** The operation key *)

(** [[ resourceType, resourceId ].join('~')]; the values of the model
    convert, so that the join does not throw. *)
Definition operationKey (resourceType resourceId : jsval) : string :=
  match Array_join "~" [Converts resourceType; Converts resourceId] with
  | inr key => key
  | inl _ => ""
  end.
Arguments operationKey : simpl never.

(** The two argument checks shared by [getsetnx] and [update]. *)

(** [typeof resourceId !== 'string' || !resourceId] *)
Definition bad_resourceId (resourceId : jsval) : bool :=
  negb (is_string resourceId) || negb (truthy resourceId).

(** [!this._allowedRemoteCalls[resourceType]] *)
Definition not_allowed_lookup (n : Node) (resourceType : jsval) : bool :=
  match get_property (_allowedRemoteCalls n) resourceType with
  | Own v => negb (truthy v)
  | Inherited => false
  | Absent => true
  end.

(** [typeof resourceType !== 'string' || !this._allowedRemoteCalls[resourceType]] *)
Definition bad_resourceType (n : Node) (resourceType : jsval) : bool :=
  negb (is_string resourceType) || not_allowed_lookup n resourceType.

(** ** Node.prototype.getsetnx *)

Definition getsetnx (resourceId resourceType : jsval) (args : list jsval)
    (next : callback) : M unit :=
  if bad_resourceId resourceId then
    emit (SetImmediate next [Err ResourceIdNotTruthyString])
  else
    bad <- gets (fun n => bad_resourceType n resourceType) ;;
    if bad then
      emit (SetImmediate next [Err (RemoteCallNotAllowed resourceType)])
    else
      let operationKey := operationKey resourceType resourceId in
      operationResult <- cluster_get operationKey ;;
      if negb (strict_eq operationResult JNull) && negb (strict_eq operationResult JUndefined) then
        emit (SetImmediate next [Val JNull; Val operationResult])
      else
        callback <- callbackQueue_add operationKey next ;;
        match callback with
        | None =>
            (* invoked later, when the ongoing operation completes *)
            ret tt
        | Some callback =>
            currentLeader <- cluster_get "leader" ;;
            self <- gets id ;;
            if strict_eq currentLeader (JStr self) then
              (* args.unshift(operationKey, resourceId); args.push(callback);
                 return this[resourceType].apply(this, args) *)
              emit (Apply (ToString resourceType)
                          ([JStr operationKey; resourceId] ++ args) callback) ;;;
              applied resourceType
            else
              (* args.unshift(resourceId, resourceType) *)
              emit (SetImmediateRemoteCall currentLeader "getsetnx"
                          ([resourceId; resourceType] ++ args) callback)
        end.

(** ** Node.prototype.update and Node.prototype.del *)

Definition update (resourceId resourceType value : jsval) (next : callback) : M unit :=
  if bad_resourceId resourceId then
    emit (SetImmediate next [Err ResourceIdNotTruthyString])
  else
    bad <- gets (fun n => bad_resourceType n resourceType) ;;
    if bad then
      emit (SetImmediate next [Err (RemoteCallNotAllowed resourceType)])
    else if strict_eq value JUndefined then
      emit (SetImmediate next [Err ValueUndefined])
    else
      let operationKey := operationKey resourceType resourceId in
      currentValue <- cluster_get operationKey ;;
      if strict_eq currentValue value then
        emit (SetImmediate next [])
      else
        currentLeader <- cluster_get "leader" ;;
        self <- gets id ;;
        if strict_eq currentLeader (JStr self) then
          cluster_set operationKey value ;;;
          emit (SetImmediate next [])
        else
          emit (SetImmediateRemoteCall currentLeader "update"
                      [resourceId; resourceType; value] next).

Definition del (resourceId resourceType : jsval) (next : callback) : M unit :=
  update resourceId resourceType JNull next.

(** ** Peer connections *)

(** What [this._remotes[node]] can be. *)
Definition peerOnline (node : jsval) : M (property (option nat)) :=
  gets (fun n => get_property (_remotes n) node).

(** [new Peer(this._remoteCallMethods, meta.hostname, meta.port)]: the
    transport returns a connection that is not established yet. *)
Definition new_Peer (hostname port : jsval) : M nat :=
  methods <- gets _remoteCallMethods ;;
  ps <- gets peers ;;
  let r := length ps in
  emit (TransportConnect r methods hostname port) ;;;
  modify (fun n =>
    set_remotes (_remotes n) (_remoteIds n)
      (ps ++ [ {| client_methods := methods; connected := false;
                  connect_listeners := [] |} ]) n) ;;;
  ret r.

(** [!remote] *)
Definition remote_falsy (remote : property (option nat)) : bool :=
  match remote with
  | Own (Some _) => false
  | Own None => true
  | Inherited => false
  | Absent => true
  end.

Definition _remote (node : jsval) : M (property (option nat)) :=
  remote <- peerOnline node ;;
  if remote_falsy remote then
    meta <- gets (fun n => peerMeta n node) ;;
    match meta with
    | Some (hostname, port) =>
        r <- new_Peer hostname port ;;
        modify (fun n =>
          set_remotes (<[ToString node := Some r]> (_remotes n)) (_remoteIds n) (peers n) n) ;;;
        ret (Own (Some r))
    | None => ret remote
    end
  else ret remote.

(** The closure [invoke] of [_remoteCall], applied to the client of
    connection [r]. *)
Definition invoke (r : nat) (p : Peer) (method : string) (args : list jsval)
    (next : callback) : M unit :=
  if bool_decide (method ∈ client_methods p) then
    (* args.push(next); m.apply(client, args) *)
    emit (ClientApply r method args next)
  else
    call next [Err (MethodNotFound method)].

(** [remote.once('connect', invoke)] *)
Definition once_connect (r : nat) (p : Peer) (c : invoke_closure) : M unit :=
  modify (fun n =>
    set_remotes (_remotes n) (_remoteIds n)
      (<[r := {| client_methods := client_methods p; connected := connected p;
                 connect_listeners := connect_listeners p ++ [c] |}]> (peers n)) n).

Definition _remoteCall (node : jsval) (method : string) (args : list jsval)
    (next : callback) : M unit :=
  remote <- _remote node ;;
  if remote_falsy remote then
    call next [Err (NoRemoteMetadata node)]
  else
    match remote with
    | Own (Some r) =>
        ps <- gets peers ;;
        match ps !! r with
        | Some p =>
            if connected p then invoke r p method args next
            else once_connect r p {| invoke_method := method; invoke_args := args;
                                     invoke_next := next |}
        | None => throw (TypeError "remote is not a connection")
        end
    | _ =>
        (* a member of Object.prototype: no [connected], no [once] *)
        throw (TypeError "remote.once is not a function")
    end.

(** ** Membership events *)

(** [arr.indexOf(x)] followed by [arr.splice(idx, 1)] when [idx >= 0]:
    the first occurrence goes. *)
Fixpoint remove_first (x : string) (l : list string) : list string :=
  match l with
  | [] => []
  | y :: l' => if String.eqb y x then l' else y :: remove_first x l'
  end.

(** The handler of the membership provider's 'left' event; [peer_id] is
    [peer.id]. *)
Definition _removePeerGossip (peer_id : string) : M unit :=
  modify (fun n =>
    set_remotes (<[peer_id := None]> (_remotes n))
                (remove_first peer_id (_remoteIds n)) (peers n) n) ;;;
  emit (GossipRemovePeer peer_id).

Definition _gossipLeader (leaderId : string) : M unit :=
  currentLeader <- cluster_get "leader" ;;
  if negb (strict_eq currentLeader (JStr leaderId)) then
    cluster_set "leader" (JStr leaderId)
  else ret tt.

Definition _onLeader : M unit :=
  self <- gets id ;;
  _gossipLeader self.

(** ** Occurrence of a character, counting of effects *)

Fixpoint has_char (c : Ascii.ascii) (s : string) : bool :=
  match s with
  | EmptyString => false
  | String c' s' => Ascii.eqb c' c || has_char c s'
  end.

Definition tilde : Ascii.ascii := Ascii.ascii_of_nat 126.

Definition is_ClusterSet (e : effect) : bool :=
  match e with ClusterSet _ _ => true | _ => false end.

Definition is_ClusterGet (e : effect) : bool :=
  match e with ClusterGet _ => true | _ => false end.


(** An execution of the operation set off: [this[resourceType].apply]
    evaluated locally, or the remote call to the leader scheduled. *)
Definition is_execution (e : effect) : bool :=
  match e with
  | Apply _ _ _ => true
  | SetImmediateRemoteCall _ _ _ _ => true
  | _ => false
  end.

(** A step on the way to a peer: the remote call scheduled, a connection
    opened, a method of a client invoked.  Only the last sends a call. *)
Definition is_rpc (e : effect) : bool :=
  match e with
  | SetImmediateRemoteCall _ _ _ _ => true
  | ClientApply _ _ _ _ => true
  | TransportConnect _ _ _ _ => true
  | _ => false
  end.

Definition count (p : effect -> bool) (log : list effect) : nat :=
  length (filter (fun e => p e = true) log).

(** [operationResult !== null && operationResult !== undefined] *)
Definition cached (v : jsval) : bool :=
  negb (strict_eq v JNull) && negb (strict_eq v JUndefined).

(** The value a local read of [key] returns. *)
Definition stored (n : Node) (key : string) : jsval :=
  default JUndefined (cluster n !! key).

(** ** What one call does, case by case *)

(** The state after [callbackQueue.add(key, next)]. *)
Definition enqueue (key : string) (next : callback) (n : Node) : Node :=
  match callbackQueue n !! key with
  | None => set_callbackQueue (<[key := [next]]> (callbackQueue n)) n
  | Some waiters => set_callbackQueue (<[key := waiters ++ [next]]> (callbackQueue n)) n
  end.

(** [currentLeader === this.id] *)
Definition is_leader (n : Node) : bool :=
  strict_eq (stored n "leader") (JStr (id n)).

(** A report of failure to a callback: [setImmediate(next, err)] or
    [next(err)]. *)
Definition is_error_report (e : effect) : bool :=
  match e with
  | SetImmediate _ (Err _ :: _) => true
  | Call _ (Err _ :: _) => true
  | _ => false
  end.

Definition is_Call (e : effect) : bool :=
  match e with Call _ _ => true | _ => false end.

(** A call of [getsetnx] as its caller sees it: the argument payload and
    the completion. *)
Definition caller : Type := (list jsval * callback)%type.

(** The callers of one operation, calling one after the other with no
    resolution in between: the function applied for the first, if one is,
    has returned and has neither called the queue's function nor touched
    the node. *)
Definition getsetnx_all (resourceId resourceType : jsval) (callers : list caller) : M unit :=
  sequence (map (fun c : caller => getsetnx resourceId resourceType c.1 c.2) callers).

(** ** Nodes used as examples *)

(** [Node.prototype] as the source leaves it: its methods and the main
    ones it inherits from [EventEmitter] are functions,
    [_allowedRemoteCalls] is an object. *)
Definition Node_prototype : gmap string member :=
  <["_allowedRemoteCalls" := Other_member]>
    (list_to_map
       (map (fun name : string => (name, Function_member))
          [ "ok"; "getsetnx"; "del"; "update"; "join"; "leave";
            "open"; "close"; "_remoteCall"; "_remote"; "peerOnline"; "randomPeerOrSelf";
            "_waitForNode"; "_onPeerJoined"; "_onLeader"; "_removePeerGossip";
            "_gossipLeader"; "_transportListening"; "_proxyError";
            "_onGossipClusterChange";
            "on"; "once"; "emit"; "addListener"; "removeListener"; "removeAllListeners";
            "listeners"; "setMaxListeners" ])).

(** A node as its constructor leaves it: [getsetnx] and [update] allowed,
    nothing stored, nothing pending, no connection. *)
Definition new_Node (skiffURL : string) (meta : jsval -> option (jsval * jsval)) : Node :=
  {| id := skiffURL;
     _allowedRemoteCalls := {[ "getsetnx" := JBool true; "update" := JBool true ]};
     prototype := Node_prototype;
     _remoteCallMethods := ["getsetnx"; "update"];
     cluster := ∅;
     callbackQueue := ∅;
     _remotes := ∅;
     _remoteIds := [];
     peers := [];
     peerMeta := meta |}.

Definition no_meta : jsval -> option (jsval * jsval) := fun _ => None.

(** Membership metadata that knows the peer ["tcp://a"]. *)
Definition meta_of_a : jsval -> option (jsval * jsval) :=
  fun node => if strict_eq node (JStr "tcp://a") then Some (JStr "a.local", JNum 5201) else None.

(** Node ["tcp://a"] with the handler ["counter"] attached, elected leader. *)
Definition leader_node : Node :=
  node_of (sequence [attachRemoteCall "counter"; _onLeader] (new_Node "tcp://a" no_meta)).

(** Node ["tcp://b"] with the handler ["counter"] attached, to which gossip
    has brought the leader entry of ["tcp://a"]. *)
Definition follower_node : Node :=
  let n := node_of (attachRemoteCall "counter" (new_Node "tcp://b" meta_of_a)) in
  set_cluster (<["leader" := JStr "tcp://a"]> (cluster n)) n.

(** A node on which the resource types ["a"] and ["a~b"] were attached. *)
Definition tilde_node : Node :=
  node_of (sequence [attachRemoteCall "a"; attachRemoteCall "a~b"; _onLeader]
             (new_Node "tcp://a" no_meta)).

(** The follower after one caller asked for ["counter"] of ["x"] and the
    scheduled remote call ran: the connection to the leader is being
    established and the call waits for its 'connect'. *)
Definition waiting_follower : Node :=
  node_of (sequence
    [ getsetnx (JStr "x") (JStr "counter") [] (Next 1);
      _remoteCall (JStr "tcp://a") "getsetnx" [JStr "x"; JStr "counter"] (Queued "counter~x") ]
    follower_node).

(** What a caller served from the cache contributes to the log: the read
    of the key and the scheduled [next(null, value)]. *)
Definition served_from_cache (key : string) (value : jsval) (c : caller) : list effect :=
  [ClusterGet key; SetImmediate c.2 [Val JNull; Val value]].

(** The node with nothing stored under [key]. *)
Definition forget (key : string) (n : Node) : Node :=
  set_cluster (delete key (cluster n)) n.

(** An immediate scheduled for [next]. *)
Definition is_SetImmediate_of (next : callback) (e : effect) : Prop :=
  exists args, e = SetImmediate next args.

(** ** Node.prototype.randomPeerOrSelf *)

Inductive peer_or_self : Type :=
| Self                                   (* return this *)
| Remote (remote : property (option nat)).  (* return this._remotes[id] *)

(** [_.sample(this._remoteIds)] returns one element of the list, or
    [undefined] when the list is empty; [pick] stands for the choice. *)
Definition sample (pick : nat) (ids : list string) : option string :=
  ids !! (pick mod length ids).

Definition randomPeerOrSelf (pick : nat) : M peer_or_self :=
  ids <- gets _remoteIds ;;
  match sample pick ids with
  | None => ret Self
  | Some id =>
      if negb (truthy (JStr id)) then ret Self
      else
        remote <- gets (fun n => get_property (_remotes n) (JStr id)) ;;
        ret (Remote remote)
  end.

(** ** The events a node reacts to *)

(** One entry per method of the node that the embedder, the membership
    provider, the event loop or a handler can run. *)
Inductive operation : Type :=
| OpGetsetnx (resourceId resourceType : jsval) (args : list jsval) (next : callback)
| OpUpdate (resourceId resourceType value : jsval) (next : callback)
| OpDel (resourceId resourceType : jsval) (next : callback)
| OpRemoteCall (node : jsval) (method : string) (args : list jsval) (next : callback)
| OpLeft (peer_id : string)
| OpLeader
| OpCall (f : callback) (args : list argument)
| OpAttach (name : string).

Definition run_op (o : operation) : M unit :=
  match o with
  | OpGetsetnx resourceId resourceType args next => getsetnx resourceId resourceType args next
  | OpUpdate resourceId resourceType value next => update resourceId resourceType value next
  | OpDel resourceId resourceType next => del resourceId resourceType next
  | OpRemoteCall node method args next => _remoteCall node method args next
  | OpLeft peer_id => _removePeerGossip peer_id
  | OpLeader => _onLeader
  | OpCall f args => call f args
  | OpAttach name => attachRemoteCall name
  end.

Definition run_ops (ops : list operation) : M unit := sequence (map run_op ops).


Definition is_ClientApply (e : effect) : bool :=
  match e with ClientApply _ _ _ _ => true | _ => false end.

(** The follower with an established connection to the leader ["tcp://a"]. *)
Definition connected_follower : Node :=
  set_remotes {[ "tcp://a" := Some 0 ]} []
    [ {| client_methods := ["getsetnx"; "update"]; connected := true;
         connect_listeners := [] |} ]
    follower_node.

(** * Properties *)

(** ** Strings and [join] *)

Lemma append_assoc (a b c : string) : (a +:+ b) +:+ c = a +:+ (b +:+ c).
Proof.
  induction a as [|x a IH]; [reflexivity|].
  change (String x ((a +:+ b) +:+ c) = String x (a +:+ (b +:+ c))).
  f_equal. exact IH.
Qed.

Lemma joined_with_cons (sep p : string) (ps : list string) :
  ps <> [] -> joined_with sep (p :: ps) = p +:+ sep +:+ joined_with sep ps.
Proof. destruct ps; [congruence | reflexivity]. Qed.

Lemma joined_with_merge (sep a b : string) (l : list string) :
  joined_with sep ((a +:+ sep +:+ b) :: l) = a +:+ sep +:+ joined_with sep (b :: l).
Proof.
  destruct l as [|c l]; [reflexivity|].
  rewrite !joined_with_cons by discriminate.
  now rewrite !append_assoc.
Qed.

Lemma join_element_converts (v : jsval) :
  join_element (Converts v) = inr (spec_text v).
Proof. destruct v as [| |[]| | | |]; reflexivity. Qed.

Lemma join_from_converts (sep R : string) (rest : list jsval) :
  join_from sep R (map Converts rest) = inr (joined_with sep (R :: map spec_text rest)).
Proof.
  revert R. induction rest as [|e rest IH]; intros R; [reflexivity|].
  cbn [join_from map]. rewrite join_element_converts, IH.
  f_equal. apply joined_with_merge.
Qed.

Lemma Array_join_converts (sep : string) (arr : list jsval) :
  Array_join sep (map Converts arr) = inr (joined_with sep (map spec_text arr)).
Proof.
  destruct arr as [|e arr]; [reflexivity|].
  cbn [Array_join map]. rewrite join_element_converts. apply join_from_converts.
Qed.



(** The copy loop of [ok]: once the first [i] slots agree with the
    arguments, the remaining iterations fill in the rest. *)
Lemma ok_copy_fills (todo i : nat) (arguments arr : list js_any) :
  length arr = length arguments ->
  i + todo = length arguments ->
  take i arr = take i arguments ->
  ok_copy todo i arguments arr = arguments.
Proof.
  revert i arr. induction todo as [|todo IH]; intros i arr Hlen Hi Hpre; simpl.
  - rewrite Nat.add_0_r in Hi. subst i.
    rewrite <- Hlen in Hpre at 1. now rewrite !firstn_all in Hpre.
  - destruct (lookup_lt_is_Some_2 arguments i) as [x Hx]; [lia|].
    rewrite Hx. simpl. apply IH.
    + now rewrite length_insert.
    + lia.
    + rewrite (take_S_r arguments i x Hx).
      rewrite (take_S_r _ i x).
      * rewrite take_insert_ge by lia. now rewrite Hpre.
      * apply list_lookup_insert_eq. lia.
Qed.

Lemma ok_nonempty (a : js_any) (rest : list js_any) :
  ok (a :: rest) = Array_join "~" (a :: rest).
Proof.
  unfold ok. cbn [length Nat.eqb].
  rewrite (ok_copy_fills (S (length rest)) 0 (a :: rest)); try reflexivity.
  cbn [length]. now rewrite length_replicate.
Qed.




(** ** The operation key *)

Lemma operationKey_strings (t i : string) :
  operationKey (JStr t) (JStr i) = t +:+ "~" +:+ i.
Proof. reflexivity. Qed.

Lemma ok_is_operationKey (resourceType resourceId : jsval) :
  ok [Converts resourceType; Converts resourceId]
  = inr (operationKey resourceType resourceId).
Proof.
  rewrite ok_nonempty. unfold operationKey.
  pose proof (Array_join_converts "~" [resourceType; resourceId]) as H.
  cbn [map] in H. now rewrite H.
Qed.

Lemma tilde_split_inj (t1 t2 i1 i2 : string) :
  has_char tilde t1 = false ->
  has_char tilde t2 = false ->
  t1 +:+ "~" +:+ i1 = t2 +:+ "~" +:+ i2 ->
  t1 = t2 /\ i1 = i2.
Proof.
  revert t2. induction t1 as [|c t1 IH]; intros [|c' t2] H1 H2 Heq; simpl in *.
  - now inversion Heq.
  - inversion Heq; subst c'. apply orb_false_elim in H2 as [H2 _].
    now rewrite Ascii.eqb_refl in H2.
  - inversion Heq; subst c. apply orb_false_elim in H1 as [H1 _].
    now rewrite Ascii.eqb_refl in H1.
  - inversion Heq; subst c'.
    apply orb_false_elim in H1 as [_ H1]. apply orb_false_elim in H2 as [_ H2].
    destruct (IH t2 H1 H2) as [-> ->]; [assumption | now split].
Qed.

(** ** [getsetnx] and [update], case by case *)

Lemma getsetnx_bad_id (resourceId resourceType : jsval) (args : list jsval)
    (next : callback) (n : Node) :
  bad_resourceId resourceId = true ->
  getsetnx resourceId resourceType args next n
  = (Normal tt, n, [SetImmediate next [Err ResourceIdNotTruthyString]]).
Proof. intros H. unfold getsetnx. now rewrite H. Qed.

Lemma getsetnx_bad_type (resourceId resourceType : jsval) (args : list jsval)
    (next : callback) (n : Node) :
  bad_resourceId resourceId = false ->
  bad_resourceType n resourceType = true ->
  getsetnx resourceId resourceType args next n
  = (Normal tt, n, [SetImmediate next [Err (RemoteCallNotAllowed resourceType)]]).
Proof.
  intros Hid Hty. unfold getsetnx, bind, gets. rewrite Hid. cbn. now rewrite Hty.
Qed.

(** A call that passes both checks: the cache, then the queue, then the
    leader. *)
Lemma getsetnx_valid (resourceId resourceType : jsval) (args : list jsval)
    (next : callback) (n : Node) :
  bad_resourceId resourceId = false ->
  bad_resourceType n resourceType = false ->
  let key := operationKey resourceType resourceId in
  getsetnx resourceId resourceType args next n
  = if cached (stored n key) then
      (Normal tt, n,
       [ClusterGet key; SetImmediate next [Val JNull; Val (stored n key)]])
    else
      match callbackQueue n !! key with
      | Some _ => (Normal tt, enqueue key next n, [ClusterGet key])
      | None =>
          if is_leader n then
            (apply_completion n resourceType, enqueue key next n,
             [ClusterGet key; ClusterGet "leader";
              Apply (ToString resourceType)
                    ([JStr key; resourceId] ++ args) (Queued key)])
          else
            (Normal tt, enqueue key next n,
             [ClusterGet key; ClusterGet "leader";
              SetImmediateRemoteCall (stored n "leader") "getsetnx"
                    ([resourceId; resourceType] ++ args) (Queued key)])
      end.
Proof.
  intros Hid Hty key.
  unfold getsetnx, bind, gets, cluster_get, callbackQueue_add, emit, modify, ret.
  rewrite Hid. cbn. rewrite Hty. cbn.
  fold key. fold (stored n key). fold (cached (stored n key)).
  destruct (cached (stored n key)); [reflexivity|].
  unfold enqueue, is_leader, stored.
  destruct (callbackQueue n !! key) as [ws|]; cbn; [reflexivity|].
  destruct (strict_eq (default JUndefined (cluster n !! "leader")) (JStr (id n)));
    reflexivity.
Qed.

Lemma update_bad_id (resourceId resourceType value : jsval) (next : callback) (n : Node) :
  bad_resourceId resourceId = true ->
  update resourceId resourceType value next n
  = (Normal tt, n, [SetImmediate next [Err ResourceIdNotTruthyString]]).
Proof. intros H. unfold update. now rewrite H. Qed.

Lemma update_bad_type (resourceId resourceType value : jsval) (next : callback) (n : Node) :
  bad_resourceId resourceId = false ->
  bad_resourceType n resourceType = true ->
  update resourceId resourceType value next n
  = (Normal tt, n, [SetImmediate next [Err (RemoteCallNotAllowed resourceType)]]).
Proof.
  intros Hid Hty. unfold update, bind, gets. rewrite Hid. cbn. now rewrite Hty.
Qed.

Lemma update_undefined (resourceId resourceType : jsval) (next : callback) (n : Node) :
  bad_resourceId resourceId = false ->
  bad_resourceType n resourceType = false ->
  update resourceId resourceType JUndefined next n
  = (Normal tt, n, [SetImmediate next [Err ValueUndefined]]).
Proof.
  intros Hid Hty. unfold update, bind, gets. rewrite Hid. cbn. now rewrite Hty.
Qed.

(** A call that passes the three checks: the short circuit on an equal
    value, then the leader's write, or the forward. *)
Lemma update_valid (resourceId resourceType value : jsval) (next : callback) (n : Node) :
  bad_resourceId resourceId = false ->
  bad_resourceType n resourceType = false ->
  strict_eq value JUndefined = false ->
  let key := operationKey resourceType resourceId in
  update resourceId resourceType value next n
  = if strict_eq (stored n key) value then
      (Normal tt, n, [ClusterGet key; SetImmediate next []])
    else if is_leader n then
      (Normal tt, set_cluster (<[key := value]> (cluster n)) n,
       [ClusterGet key; ClusterGet "leader"; ClusterSet key value; SetImmediate next []])
    else
      (Normal tt, n,
       [ClusterGet key; ClusterGet "leader";
        SetImmediateRemoteCall (stored n "leader") "update"
              [resourceId; resourceType; value] next]).
Proof.
  intros Hid Hty Hval key.
  unfold update, bind, gets, cluster_get, cluster_set, emit, modify, ret.
  rewrite Hid. cbn. rewrite Hty, Hval. cbn.
  fold key. fold (stored n key).
  destruct (strict_eq (stored n key) value); [reflexivity|].
  unfold is_leader, stored.
  destruct (strict_eq (default JUndefined (cluster n !! "leader")) (JStr (id n)));
    reflexivity.
Qed.

(** ** What the checks let through *)

Lemma good_resourceId_string (resourceId : jsval) :
  bad_resourceId resourceId = false -> exists i, resourceId = JStr i /\ i <> "".
Proof.
  destruct resourceId; try discriminate. intros H. exists s. split; [reflexivity|].
  intros ->. discriminate H.
Qed.

Lemma good_resourceType_string (n : Node) (resourceType : jsval) :
  bad_resourceType n resourceType = false -> exists t, resourceType = JStr t.
Proof. destruct resourceType; try discriminate. eauto. Qed.

Lemma cached_spec (v : jsval) :
  cached v = true <-> v <> JNull /\ v <> JUndefined.
Proof.
  unfold cached. destruct v; cbn; split; try (intros [? ?]); try discriminate;
    try congruence; try (split; discriminate).
Qed.

Lemma has_char_append (c : Ascii.ascii) (a b : string) :
  has_char c (a +:+ b) = has_char c a || has_char c b.
Proof.
  induction a as [|x a IH]; [reflexivity|].
  change (has_char c (String x (a +:+ b)) = has_char c (String x a) || has_char c b).
  cbn [has_char]. rewrite IH. now rewrite orb_assoc.
Qed.

Lemma operationKey_has_tilde (t i : string) :
  has_char tilde (operationKey (JStr t) (JStr i)) = true.
Proof.
  rewrite operationKey_strings, !has_char_append. cbn. now rewrite orb_true_r.
Qed.

Lemma operationKey_not_leader (t i : string) :
  operationKey (JStr t) (JStr i) <> "leader".
Proof.
  intros H. pose proof (operationKey_has_tilde t i) as Ht.
  rewrite H in Ht. discriminate Ht.
Qed.

(** C8 (as amended): the operation key of a call is computed from the
    resource type and the resource id alone, whatever the argument payload
    and the callback, and it is the key [ok] builds from the two; two pairs
    whose resource types contain no ["~"] get the same key only when they
    are the same pair. *)
Theorem C8_operationKey_deterministic_injective_without_tilde
    (t1 i1 t2 i2 : string) :
  has_char tilde t1 = false ->
  has_char tilde t2 = false ->
  (forall (n : Node) (args : list jsval) (next : callback),
      bad_resourceId (JStr i1) = false ->
      bad_resourceType n (JStr t1) = false ->
      exists rest,
        log_of (getsetnx (JStr i1) (JStr t1) args next n)
        = ClusterGet (t1 +:+ "~" +:+ i1) :: rest) /\
  ok [JStr t1; JStr i1] = inr (t1 +:+ "~" +:+ i1) /\
  (operationKey (JStr t1) (JStr i1) = operationKey (JStr t2) (JStr i2) ->
   t1 = t2 /\ i1 = i2).
Proof.
  intros H1 H2. split; [|split].
  - intros n args next Hid Hty.
    rewrite (getsetnx_valid _ _ args next n Hid Hty). cbv zeta.
    rewrite operationKey_strings.
    destruct (cached _); [eexists; reflexivity|].
    destruct (callbackQueue n !! _); [eexists; reflexivity|].
    destruct (is_leader n); eexists; reflexivity.
  - now rewrite ok_is_operationKey.
  - rewrite !operationKey_strings. now apply tilde_split_inj.
Qed.

Lemma C8_witness :
  has_char tilde "counter" = false /\
  (operationKey (JStr "counter") (JStr "x") = operationKey (JStr "counter") (JStr "x") ->
   "counter" = "counter" /\ "x" = "x").
Proof.
  split; [reflexivity|].
  exact (proj2 (proj2
    (C8_operationKey_deterministic_injective_without_tilde
       "counter" "x" "counter" "x" eq_refl eq_refl))).
Defined.

(** C8, the claim as stated fails: on a node where the resource types
    ["a"] and ["a~b"] are both attached, the calls for (["a"], ["b~c"]) and
    for (["a~b"], ["c"]) pass the argument checks and share one key. *)
Lemma C8_counterexample :
  bad_resourceType tilde_node (JStr "a") = false /\
  bad_resourceType tilde_node (JStr "a~b") = false /\
  bad_resourceId (JStr "b~c") = false /\
  bad_resourceId (JStr "c") = false /\
  (JStr "a", JStr "b~c") <> (JStr "a~b", JStr "c") /\
  operationKey (JStr "a") (JStr "b~c") = operationKey (JStr "a~b") (JStr "c") /\
  log_of (getsetnx (JStr "b~c") (JStr "a") [] (Next 1) tilde_node)
  = [ClusterGet "a~b~c"; ClusterGet "leader";
     Apply "a" [JStr "a~b~c"; JStr "b~c"] (Queued "a~b~c")] /\
  log_of (getsetnx (JStr "c") (JStr "a~b") [] (Next 2) tilde_node)
  = [ClusterGet "a~b~c"; ClusterGet "leader";
     Apply "a~b" [JStr "a~b~c"; JStr "c"] (Queued "a~b~c")].
Proof.
  repeat split; try (vm_compute; reflexivity). discriminate.
Qed.

(** ** Runs of several calls *)

Lemma sequence_cons_normal (m : M unit) (ms : list (M unit)) (n n1 : Node)
    (log1 : list effect) :
  m n = (Normal tt, n1, log1) ->
  sequence (m :: ms) n
  = (result_of (sequence ms n1), node_of (sequence ms n1),
     log1 ++ log_of (sequence ms n1)).
Proof.
  intros H. cbn [sequence]. unfold bind. rewrite H.
  destruct (sequence ms n1) as [[r n2] log2]. reflexivity.
Qed.

Lemma sequence_cons (m : M unit) (ms : list (M unit)) (n : Node) :
  sequence (m :: ms) n
  = (first_abnormal (result_of (m n)) (result_of (sequence ms (node_of (m n)))),
     node_of (sequence ms (node_of (m n))),
     log_of (m n) ++ log_of (sequence ms (node_of (m n)))).
Proof.
  cbn [sequence]. destruct (m n) as [[r1 n1] log1].
  unfold result_of, node_of, log_of. cbn [fst snd].
  destruct (sequence ms n1) as [[r2 n2] log2]. reflexivity.
Qed.

Lemma count_app (p : effect -> bool) (l1 l2 : list effect) :
  count p (l1 ++ l2) = count p l1 + count p l2.
Proof. unfold count. now rewrite filter_app, length_app. Qed.

(** ** The cache fast path *)

(** C4: when the store holds a value for the key (neither [undefined] nor
    [null]), every call of [getsetnx] for that key that passes the argument
    checks schedules its callback with [(null, value)] and does nothing
    else: the node is left as it was (no pending operation is created), no
    handler is applied and nothing is sent to a peer - for any number of
    such calls in a row. *)
Theorem C4_cached_value_served_without_execution
    (resourceId resourceType : jsval) (callers : list caller) (n : Node) :
  bad_resourceId resourceId = false ->
  bad_resourceType n resourceType = false ->
  stored n (operationKey resourceType resourceId) <> JUndefined ->
  stored n (operationKey resourceType resourceId) <> JNull ->
  let key := operationKey resourceType resourceId in
  let r := getsetnx_all resourceId resourceType callers n in
  r = (Normal tt, n, concat (map (served_from_cache key (stored n key)) callers)) /\
  count is_execution (log_of r) = 0 /\
  count is_rpc (log_of r) = 0 /\
  count is_ClusterSet (log_of r) = 0.
Proof.
  intros Hid Hty Hu Hn key r.
  assert (Hc : cached (stored n key) = true) by (apply cached_spec; now split).
  assert (Hr : r = (Normal tt, n,
                    concat (map (served_from_cache key (stored n key)) callers))).
  { subst r. unfold getsetnx_all.
    induction callers as [|c callers IH]; [reflexivity|].
    cbn [map concat].
    rewrite (sequence_cons_normal _ _ n n (served_from_cache key (stored n key) c)).
    - now rewrite IH.
    - rewrite (getsetnx_valid _ _ c.1 c.2 n Hid Hty). cbv zeta. fold key.
      now rewrite Hc. }
  split; [exact Hr|]. rewrite Hr. unfold log_of. cbn [snd].
  clear. induction callers as [|c callers IH]; [repeat split|].
  cbn [map concat]. rewrite !count_app.
  destruct IH as (-> & -> & ->). repeat split.
Qed.

Lemma C4_witness :
  stored (set_cluster (<["counter~x" := JNum 1]> (cluster follower_node)) follower_node)
         (operationKey (JStr "counter") (JStr "x")) <> JUndefined /\
  count is_execution
    (log_of (getsetnx_all (JStr "x") (JStr "counter") [([], Next 1); ([JNum 5], Next 2)]
       (set_cluster (<["counter~x" := JNum 1]> (cluster follower_node)) follower_node)))
  = 0.
Proof.
  assert (Hid : bad_resourceId (JStr "x") = false) by reflexivity.
  assert (Hty : bad_resourceType
                  (set_cluster (<["counter~x" := JNum 1]> (cluster follower_node))
                     follower_node) (JStr "counter") = false)
    by (vm_compute; reflexivity).
  assert (Hu : stored (set_cluster (<["counter~x" := JNum 1]> (cluster follower_node))
                         follower_node)
                      (operationKey (JStr "counter") (JStr "x")) <> JUndefined)
    by (vm_compute; discriminate).
  assert (Hn : stored (set_cluster (<["counter~x" := JNum 1]> (cluster follower_node))
                         follower_node)
                      (operationKey (JStr "counter") (JStr "x")) <> JNull)
    by (vm_compute; discriminate).
  split; [exact Hu|].
  exact (proj1 (proj2
    (C4_cached_value_served_without_execution (JStr "x") (JStr "counter")
       [([], Next 1); ([JNum 5], Next 2)]
       (set_cluster (<["counter~x" := JNum 1]> (cluster follower_node)) follower_node)
       Hid Hty Hu Hn))).
Defined.

(** ** A stored [null] *)

Lemma stored_forget_same (key : string) (n : Node) :
  stored (forget key n) key = JUndefined.
Proof. unfold stored, forget. cbn. now rewrite lookup_delete_eq. Qed.

Lemma stored_forget_other (key k : string) (n : Node) :
  key <> k -> stored (forget key n) k = stored n k.
Proof. intros H. unfold stored, forget. cbn. now rewrite lookup_delete_ne. Qed.

Lemma stored_set_same (key : string) (v : jsval) (n : Node) :
  stored (set_cluster (<[key := v]> (cluster n)) n) key = v.
Proof. unfold stored. cbn. now rewrite lookup_insert_eq. Qed.

Lemma stored_set_other (key k : string) (v : jsval) (n : Node) :
  key <> k -> stored (set_cluster (<[key := v]> (cluster n)) n) k = stored n k.
Proof. intros H. unfold stored. cbn. now rewrite lookup_insert_ne. Qed.

Lemma strict_eq_null (v : jsval) : strict_eq v JNull = true -> v = JNull.
Proof. destruct v; cbn; congruence. Qed.

(** After [del] on the leader the key holds [null]. *)
Lemma del_leaves_null (resourceId resourceType : jsval) (next : callback) (n : Node) :
  bad_resourceId resourceId = false ->
  bad_resourceType n resourceType = false ->
  is_leader n = true ->
  stored (node_of (del resourceId resourceType next n))
         (operationKey resourceType resourceId) = JNull.
Proof.
  intros Hid Hty Hl. unfold del.
  rewrite (update_valid _ _ JNull next n Hid Hty eq_refl). cbv zeta.
  destruct (strict_eq _ JNull) eqn:E.
  - now apply strict_eq_null.
  - rewrite Hl. unfold node_of. cbn [fst snd]. apply stored_set_same.
Qed.

(** C9: [getsetnx] treats a stored [null] as it treats an absent value.
    [del] on the leader leaves [null] under the key; and with [null] under
    the key a call that passes the argument checks does exactly what it
    does when nothing is stored: it schedules no immediate for its callback
    (nothing is returned from the cache), joins the pending operation of
    the key, and, when it is the first caller, triggers one execution. *)
Theorem C9_stored_null_is_absent
    (resourceId resourceType : jsval) (args : list jsval) (next next0 : callback)
    (n : Node) :
  bad_resourceId resourceId = false ->
  bad_resourceType n resourceType = false ->
  let key := operationKey resourceType resourceId in
  (is_leader n = true ->
   stored (node_of (del resourceId resourceType next0 n)) key = JNull) /\
  (stored n key = JNull ->
   let r := getsetnx resourceId resourceType args next n in
   let r' := getsetnx resourceId resourceType args next (forget key n) in
   result_of r = result_of r' /\
   log_of r = log_of r' /\
   callbackQueue (node_of r) = callbackQueue (node_of r') /\
   (forall e, In e (log_of r) -> ~ is_SetImmediate_of next e) /\
   (exists waiters, callbackQueue (node_of r) !! key = Some (waiters ++ [next])) /\
   (callbackQueue n !! key = None -> count is_execution (log_of r) = 1)).
Proof.
  intros Hid Hty key. split.
  - intros Hl. now apply del_leaves_null.
  - intros Hnull r r'.
    assert (Hty' : bad_resourceType (forget key n) resourceType = false) by exact Hty.
    destruct (good_resourceId_string _ Hid) as (i & -> & _).
    destruct (good_resourceType_string _ _ Hty) as (t & ->).
    assert (Hk : key <> "leader") by apply operationKey_not_leader.
    subst r r'.
    rewrite (getsetnx_valid _ _ args next n Hid Hty).
    rewrite (getsetnx_valid _ _ args next (forget key n) Hid Hty').
    cbv zeta. fold key.
    rewrite Hnull, stored_forget_same.
    unfold is_leader. rewrite (stored_forget_other key "leader" n Hk).
    change (callbackQueue (forget key n)) with (callbackQueue n).
    change (id (forget key n)) with (id n).
    change (cached JNull) with false. change (cached JUndefined) with false. cbv iota.
    unfold enqueue.
    change (callbackQueue (forget key n)) with (callbackQueue n).
    destruct (callbackQueue n !! key) as [ws|] eqn:Hq.
    + unfold result_of, log_of, node_of. cbn.
      repeat split.
      * intros e [<-|[]] [a Ha]. discriminate Ha.
      * exists ws. now rewrite lookup_insert_eq.
      * discriminate.
    + destruct (strict_eq (stored n "leader") (JStr (id n)));
        unfold result_of, log_of, node_of; cbn;
        (repeat split;
         [ intros e [<-|[<-|[<-|[]]]] [a Ha]; discriminate Ha
         | exists []; now rewrite lookup_insert_eq ]).
Qed.

Lemma C9_witness :
  bad_resourceId (JStr "x") = false /\
  (let n := node_of (del (JStr "x") (JStr "counter") (Next 1) leader_node) in
   stored n "counter~x" = JNull /\
   log_of (getsetnx (JStr "x") (JStr "counter") [] (Next 2) n)
   = log_of (getsetnx (JStr "x") (JStr "counter") [] (Next 2) (forget "counter~x" n))).
Proof.
  split; [reflexivity|]. cbv zeta. split.
  - apply (C9_stored_null_is_absent (JStr "x") (JStr "counter") [] (Next 2) (Next 1)
             leader_node); reflexivity.
  - apply (C9_stored_null_is_absent (JStr "x") (JStr "counter") [] (Next 2) (Next 1)
             (node_of (del (JStr "x") (JStr "counter") (Next 1) leader_node)));
      reflexivity.
Defined.

(** ** [del] and the value check of [update] *)

Lemma update_undefined_fails (resourceId resourceType : jsval) (next : callback)
    (n : Node) :
  exists e, update resourceId resourceType JUndefined next n
            = (Normal tt, n, [SetImmediate next [Err e]]).
Proof.
  destruct (bad_resourceId resourceId) eqn:Hid.
  - eexists. now apply update_bad_id.
  - destruct (bad_resourceType n resourceType) eqn:Hty.
    + eexists. now apply update_bad_type.
    + eexists. now apply update_undefined.
Qed.

(** C6 (as amended): [del] is [update] with the value [null].  The value
    [update] refuses is [undefined], a different value: with [undefined]
    every call ends in an error reported to the callback and leaves the
    node as it was, and with arguments that pass the two checks the error
    is the one about the value.  [del] with such arguments reports no
    error. *)
Theorem C6_del_is_update_null_and_undefined_refused
    (resourceId resourceType : jsval) (next : callback) (n : Node) :
  bad_resourceId resourceId = false ->
  bad_resourceType n resourceType = false ->
  del resourceId resourceType next = update resourceId resourceType JNull next /\
  update resourceId resourceType JUndefined next n
  = (Normal tt, n, [SetImmediate next [Err ValueUndefined]]) /\
  (forall (id' type' : jsval) (n' : Node),
      exists e, update id' type' JUndefined next n'
                = (Normal tt, n', [SetImmediate next [Err e]])) /\
  count is_error_report (log_of (del resourceId resourceType next n)) = 0.
Proof.
  intros Hid Hty. split; [reflexivity|]. split; [now apply update_undefined|].
  split; [intros; apply update_undefined_fails|].
  unfold del. rewrite (update_valid _ _ JNull next n Hid Hty eq_refl). cbv zeta.
  destruct (strict_eq _ JNull); [reflexivity|].
  destruct (is_leader n); reflexivity.
Qed.

Lemma C6_witness :
  bad_resourceType leader_node (JStr "counter") = false /\
  count is_error_report (log_of (del (JStr "x") (JStr "counter") (Next 1) leader_node)) = 0.
Proof.
  split; [reflexivity|].
  apply (C6_del_is_update_null_and_undefined_refused (JStr "x") (JStr "counter") (Next 1)
           leader_node); reflexivity.
Defined.

(** C6, the claim as stated fails: [update] called with the very value
    [del] passes, [null], does not fail; on the leader it writes [null] and
    acknowledges. *)
Lemma C6_counterexample :
  del (JStr "x") (JStr "counter") (Next 1) leader_node
  = update (JStr "x") (JStr "counter") JNull (Next 1) leader_node /\
  log_of (update (JStr "x") (JStr "counter") JNull (Next 1) leader_node)
  = [ClusterGet "counter~x"; ClusterGet "leader"; ClusterSet "counter~x" JNull;
     SetImmediate (Next 1) []] /\
  count is_error_report
    (log_of (update (JStr "x") (JStr "counter") JNull (Next 1) leader_node)) = 0.
Proof. repeat split; vm_compute; reflexivity. Qed.

(** ** Writing the same value twice *)

Lemma is_leader_set_other (key : string) (v : jsval) (n : Node) :
  key <> "leader" ->
  is_leader (set_cluster (<[key := v]> (cluster n)) n) = is_leader n.
Proof.
  intros H. unfold is_leader. now rewrite (stored_set_other key "leader" v n H).
Qed.

(** C5 (as amended): on the leader, for a value that is strictly equal to
    itself (any value but [NaN]), two calls of [update] in a row with that
    value and arguments that pass the checks write the store once when the
    key did not hold the value before the first call, and not at all when it
    did; the second call reads the key, finds the value and acknowledges
    without writing. *)
Theorem C5_update_twice_writes_at_most_once
    (resourceId resourceType value : jsval) (next1 next2 : callback) (n : Node) :
  bad_resourceId resourceId = false ->
  bad_resourceType n resourceType = false ->
  strict_eq value JUndefined = false ->
  strict_eq value value = true ->
  is_leader n = true ->
  let key := operationKey resourceType resourceId in
  let first := update resourceId resourceType value next1 n in
  let second := update resourceId resourceType value next2 (node_of first) in
  second = (Normal tt, node_of first, [ClusterGet key; SetImmediate next2 []]) /\
  count is_ClusterSet
    (log_of (sequence [update resourceId resourceType value next1;
                       update resourceId resourceType value next2] n))
  = (if strict_eq (stored n key) value then 0 else 1).
Proof.
  intros Hid Hty Hval Hrefl Hl key first second.
  destruct (good_resourceId_string _ Hid) as (i & -> & _).
  destruct (good_resourceType_string _ _ Hty) as (t & ->).
  assert (Hk : key <> "leader") by apply operationKey_not_leader.
  assert (Hfirst : first
    = if strict_eq (stored n key) value then
        (Normal tt, n, [ClusterGet key; SetImmediate next1 []])
      else
        (Normal tt, set_cluster (<[key := value]> (cluster n)) n,
         [ClusterGet key; ClusterGet "leader"; ClusterSet key value;
          SetImmediate next1 []])).
  { subst first. rewrite (update_valid _ _ value next1 n Hid Hty Hval).
    cbv zeta. fold key. now rewrite Hl. }
  assert (Hsecond : second
    = (Normal tt, node_of first, [ClusterGet key; SetImmediate next2 []])).
  { subst second. rewrite Hfirst.
    destruct (strict_eq (stored n key) value) eqn:E; unfold node_of; cbn [fst snd].
    - rewrite (update_valid _ _ value next2 n Hid Hty Hval). cbv zeta. fold key.
      now rewrite E.
    - assert (Hty' : bad_resourceType (set_cluster (<[key := value]> (cluster n)) n)
                       (JStr t) = false) by exact Hty.
      rewrite (update_valid _ _ value next2 _ Hid Hty' Hval). cbv zeta. fold key.
      now rewrite stored_set_same, Hrefl. }
  split; [exact Hsecond|].
  rewrite (sequence_cons_normal _ _ n (node_of first) (log_of first)).
  2:{ rewrite Hfirst. now destruct (strict_eq (stored n key) value). }
  rewrite (sequence_cons_normal _ _ (node_of first) (node_of first)
             [ClusterGet key; SetImmediate next2 []]).
  2:{ exact Hsecond. }
  unfold log_of at 1. cbn [snd]. rewrite count_app.
  rewrite Hfirst. now destruct (strict_eq (stored n key) value).
Qed.

Lemma C5_witness :
  is_leader leader_node = true /\
  count is_ClusterSet
    (log_of (sequence [update (JStr "x") (JStr "counter") (JNum 1) (Next 1);
                       update (JStr "x") (JStr "counter") (JNum 1) (Next 2)] leader_node))
  = 1.
Proof.
  split; [reflexivity|].
  apply (C5_update_twice_writes_at_most_once (JStr "x") (JStr "counter") (JNum 1)
           (Next 1) (Next 2) leader_node); reflexivity.
Defined.

(** C5, the claim as stated fails: when the key already holds the value
    the two calls write nothing, and with [NaN], which no read is ever
    strictly equal to, both calls write. *)
Lemma C5_counterexample :
  (let n := node_of (update (JStr "x") (JStr "counter") (JNum 1) (Next 0) leader_node) in
   is_leader n = true /\
   count is_ClusterSet
     (log_of (sequence [update (JStr "x") (JStr "counter") (JNum 1) (Next 1);
                        update (JStr "x") (JStr "counter") (JNum 1) (Next 2)] n)) = 0) /\
  count is_ClusterSet
    (log_of (sequence [update (JStr "x") (JStr "counter") JNaN (Next 1);
                       update (JStr "x") (JStr "counter") JNaN (Next 2)] leader_node)) = 2.
Proof. repeat split; vm_compute; reflexivity. Qed.

(** ** Calls that fail the argument checks *)

(** A resource type that is not a string, or a name that is neither set in
    [_allowedRemoteCalls] nor a member of [Object.prototype], fails the
    check. *)
Lemma unknown_type_is_bad (n : Node) (resourceType : jsval) :
  (is_string resourceType = false \/
   (_allowedRemoteCalls n !! ToString resourceType = None /\
    ToString resourceType ∉ Object_prototype_names)) ->
  bad_resourceType n resourceType = true.
Proof.
  unfold bad_resourceType, not_allowed_lookup, get_property.
  intros [-> | [-> Hp]]; [reflexivity|].
  rewrite bool_decide_eq_false_2 by exact Hp. apply orb_true_r.
Qed.

(** A call whose resource id or resource type fails its check only
    schedules the callback with an error: the node is unchanged, the
    cluster is neither read nor written, nothing is sent. *)
Lemma rejected_calls_do_nothing (resourceId resourceType value : jsval)
    (args : list jsval) (next : callback) (n : Node) :
  bad_resourceId resourceId = true \/ bad_resourceType n resourceType = true ->
  exists e,
    getsetnx resourceId resourceType args next n
      = (Normal tt, n, [SetImmediate next [Err e]]) /\
    update resourceId resourceType value next n
      = (Normal tt, n, [SetImmediate next [Err e]]) /\
    del resourceId resourceType next n
      = (Normal tt, n, [SetImmediate next [Err e]]).
Proof.
  intros H. destruct (bad_resourceId resourceId) eqn:Hid.
  - exists ResourceIdNotTruthyString. unfold del.
    now rewrite getsetnx_bad_id, !update_bad_id.
  - destruct H as [H|H]; [discriminate|].
    exists (RemoteCallNotAllowed resourceType). unfold del.
    now rewrite getsetnx_bad_type, !update_bad_type.
Qed.

(** C3, the code at the failing input: ["toString"] is not a registered
    resource type (it is not set in [_allowedRemoteCalls], and
    [attachRemoteCall] refuses to register it), yet it passes the check of
    the resource type, because the lookup finds the member every object
    inherits.  [getsetnx] then reads the cluster, creates a pending
    operation and applies [this.toString] on the leader, or schedules the
    remote call on a follower; [update] and [del] write the cluster on the
    leader. *)
Theorem C3_inherited_name_passes_the_check :
  _allowedRemoteCalls leader_node !! "toString" = None /\
  result_of (attachRemoteCall "toString" leader_node) = Throw (AlreadyDefined "toString") /\
  bad_resourceId (JStr "x") = false /\
  bad_resourceType leader_node (JStr "toString") = false /\
  log_of (getsetnx (JStr "x") (JStr "toString") [] (Next 1) leader_node)
  = [ClusterGet "toString~x"; ClusterGet "leader";
     Apply "toString" [JStr "toString~x"; JStr "x"] (Queued "toString~x")] /\
  callbackQueue (node_of (getsetnx (JStr "x") (JStr "toString") [] (Next 1) leader_node))
    !! "toString~x" = Some [Next 1] /\
  log_of (getsetnx (JStr "x") (JStr "toString") [] (Next 1) follower_node)
  = [ClusterGet "toString~x"; ClusterGet "leader";
     SetImmediateRemoteCall (JStr "tcp://a") "getsetnx" [JStr "x"; JStr "toString"]
       (Queued "toString~x")] /\
  log_of (update (JStr "x") (JStr "toString") (JNum 1) (Next 1) leader_node)
  = [ClusterGet "toString~x"; ClusterGet "leader"; ClusterSet "toString~x" (JNum 1);
     SetImmediate (Next 1) []] /\
  log_of (del (JStr "x") (JStr "toString") (Next 1) leader_node)
  = [ClusterGet "toString~x"; ClusterGet "leader"; ClusterSet "toString~x" JNull;
     SetImmediate (Next 1) []].
Proof. repeat split; vm_compute; reflexivity. Qed.

(** ** Coalescing *)

Lemma set_callbackQueue_id (n : Node) : set_callbackQueue (callbackQueue n) n = n.
Proof. now destruct n. Qed.

Lemma emit_all_run (es : list effect) (n : Node) : emit_all es n = (Normal tt, n, es).
Proof.
  induction es as [|e es IH]; [reflexivity|].
  cbn [emit_all]. unfold bind, emit. now rewrite IH.
Qed.

(** Calling the function [callbackQueue.add] returned: every waiter gets
    the arguments, in arrival order, and the pending operation is gone. *)
Lemma call_Queued (key : string) (args : list argument) (waiters : list callback)
    (n : Node) :
  callbackQueue n !! key = Some waiters ->
  call (Queued key) args n
  = (Normal tt, set_callbackQueue (delete key (callbackQueue n)) n,
     map (fun w => Call w args) waiters).
Proof.
  intros H. cbn [call]. unfold queued_callback, bind, gets, modify. rewrite H.
  now rewrite emit_all_run.
Qed.

(** Callers that find a pending operation only join it. *)
Lemma getsetnx_all_joins (resourceId resourceType : jsval) (callers : list caller) :
  forall (waiters : list callback) (n : Node),
  bad_resourceId resourceId = false ->
  bad_resourceType n resourceType = false ->
  let key := operationKey resourceType resourceId in
  cached (stored n key) = false ->
  callbackQueue n !! key = Some waiters ->
  getsetnx_all resourceId resourceType callers n
  = (Normal tt,
     set_callbackQueue (<[key := waiters ++ map snd callers]> (callbackQueue n)) n,
     map (fun _ => ClusterGet key) callers).
Proof.
  induction callers as [|c callers IH]; intros waiters n Hid Hty key Hc Hq.
  - cbn. rewrite app_nil_r, insert_id by exact Hq. now rewrite set_callbackQueue_id.
  - unfold getsetnx_all. cbn [map].
    rewrite (sequence_cons_normal _ _ n (enqueue key c.2 n) [ClusterGet key]).
    2:{ rewrite (getsetnx_valid _ _ c.1 c.2 n Hid Hty). cbv zeta. fold key.
        now rewrite Hc, Hq. }
    fold (getsetnx_all resourceId resourceType callers).
    unfold enqueue. rewrite Hq.
    rewrite (IH (waiters ++ [c.2])); try assumption.
    + unfold result_of, node_of, log_of. cbn. fold key.
      now rewrite insert_insert_eq, <- app_assoc.
    + cbn. fold key. apply lookup_insert_eq.
Qed.

(** The first caller of a key that is neither cached nor pending triggers
    the execution; the callers after it join. *)
Lemma getsetnx_all_first (resourceId resourceType : jsval) (c : caller)
    (callers : list caller) (n : Node) :
  bad_resourceId resourceId = false ->
  bad_resourceType n resourceType = false ->
  let key := operationKey resourceType resourceId in
  cached (stored n key) = false ->
  callbackQueue n !! key = None ->
  getsetnx_all resourceId resourceType (c :: callers) n
  = (if is_leader n then apply_completion n resourceType else Normal tt,
     set_callbackQueue (<[key := map snd (c :: callers)]> (callbackQueue n)) n,
     [ClusterGet key; ClusterGet "leader";
      if is_leader n then
        Apply (ToString resourceType) ([JStr key; resourceId] ++ c.1) (Queued key)
      else
        SetImmediateRemoteCall (stored n "leader") "getsetnx"
          ([resourceId; resourceType] ++ c.1) (Queued key)]
     ++ map (fun _ => ClusterGet key) callers).
Proof.
  intros Hid Hty key Hc Hq.
  unfold getsetnx_all. cbn [map]. rewrite sequence_cons.
  fold (getsetnx_all resourceId resourceType callers).
  rewrite (getsetnx_valid _ _ c.1 c.2 n Hid Hty). cbv zeta. fold key.
  rewrite Hc, Hq.
  assert (Hjoin : getsetnx_all resourceId resourceType callers (enqueue key c.2 n)
    = (Normal tt,
       set_callbackQueue (<[key := map snd (c :: callers)]> (callbackQueue n)) n,
       map (fun _ => ClusterGet key) callers)).
  { unfold enqueue. rewrite Hq.
    rewrite (getsetnx_all_joins _ _ callers [c.2]); try assumption.
    - cbn. fold key. now rewrite insert_insert_eq.
    - cbn. fold key. apply lookup_insert_eq. }
  destruct (is_leader n); unfold result_of, node_of, log_of; cbn [fst snd];
    rewrite Hjoin; cbn [fst snd]; [|reflexivity].
  unfold apply_completion. now destruct (this_member n (ToString resourceType)).
Qed.

Lemma count_reads (p : effect -> bool) (key : string) (callers : list caller) :
  p (ClusterGet key) = false ->
  count p (map (fun _ => ClusterGet key) callers) = 0.
Proof.
  intros H. unfold count. induction callers as [|c callers IH]; [reflexivity|].
  cbn [map]. rewrite filter_cons_False; [exact IH|]. now rewrite H.
Qed.

(** C2 (as amended): on the leader, the first caller of a key that is
    neither cached nor pending has the handler named by the resource type
    applied, synchronously, to the operation key, the resource id, the
    elements of the argument payload and, last, the queue's function for
    the key.  Whatever that function is called with is delivered to the
    caller and to every caller that joined the key in the meantime. *)
Theorem C2_leader_applies_handler_with_key_and_id
    (resourceId resourceType : jsval) (args : list jsval) (next : callback)
    (callers : list caller) (n : Node) :
  bad_resourceId resourceId = false ->
  bad_resourceType n resourceType = false ->
  cached (stored n (operationKey resourceType resourceId)) = false ->
  callbackQueue n !! operationKey resourceType resourceId = None ->
  is_leader n = true ->
  let key := operationKey resourceType resourceId in
  let first := getsetnx resourceId resourceType args next n in
  log_of first
  = [ClusterGet key; ClusterGet "leader";
     Apply (ToString resourceType) ([JStr key; resourceId] ++ args) (Queued key)] /\
  forall result : list argument,
    log_of (call (Queued key) result
              (node_of (getsetnx_all resourceId resourceType callers (node_of first))))
    = map (fun w => Call w result) (next :: map snd callers).
Proof.
  intros Hid Hty Hc Hq Hl key first.
  assert (Hfirst : first
    = (apply_completion n resourceType, enqueue key next n,
       [ClusterGet key; ClusterGet "leader";
        Apply (ToString resourceType) ([JStr key; resourceId] ++ args) (Queued key)])).
  { subst first. rewrite (getsetnx_valid _ _ args next n Hid Hty). cbv zeta.
    now rewrite Hc, Hq, Hl. }
  rewrite Hfirst. split; [reflexivity|]. intros result.
  unfold node_of at 2. cbn [fst snd].
  assert (Hq1 : callbackQueue (enqueue key next n) !! key = Some [next]).
  { unfold enqueue, key. rewrite Hq. cbn. apply lookup_insert_eq. }
  assert (Hty1 : bad_resourceType (enqueue key next n) resourceType = false).
  { unfold enqueue, key. rewrite Hq. exact Hty. }
  assert (Hc1 : cached (stored (enqueue key next n) key) = false).
  { unfold enqueue, key. rewrite Hq. exact Hc. }
  rewrite (getsetnx_all_joins _ _ callers [next] (enqueue key next n) Hid Hty1 Hc1 Hq1).
  unfold node_of. cbn [fst snd]. fold key.
  erewrite call_Queued; [reflexivity|]. cbn. apply lookup_insert_eq.
Qed.

Lemma C2_witness :
  is_leader leader_node = true /\
  log_of (getsetnx (JStr "x") (JStr "counter") [JNum 7] (Next 1) leader_node)
  = [ClusterGet (operationKey (JStr "counter") (JStr "x")); ClusterGet "leader";
     Apply (ToString (JStr "counter"))
       ([JStr (operationKey (JStr "counter") (JStr "x")); JStr "x"] ++ [JNum 7])
       (Queued (operationKey (JStr "counter") (JStr "x")))].
Proof.
  assert (Hid : bad_resourceId (JStr "x") = false) by reflexivity.
  assert (Hty : bad_resourceType leader_node (JStr "counter") = false)
    by (vm_compute; reflexivity).
  assert (Hc : cached (stored leader_node (operationKey (JStr "counter") (JStr "x")))
               = false) by (vm_compute; reflexivity).
  assert (Hq : callbackQueue leader_node !! operationKey (JStr "counter") (JStr "x")
               = None) by (vm_compute; reflexivity).
  assert (Hl : is_leader leader_node = true) by (vm_compute; reflexivity).
  split; [exact Hl|].
  exact (proj1
    (C2_leader_applies_handler_with_key_and_id (JStr "x") (JStr "counter") [JNum 7]
       (Next 1) [] leader_node Hid Hty Hc Hq Hl)).
Defined.

(** C2, the claim as stated fails: the handler is not applied to
    [(resourceId, args)].  Its first argument is the operation key, the
    resource id comes second and the payload is spread after it. *)
Lemma C2_counterexample :
  exists handler_args : list jsval,
    In (Apply "counter" handler_args (Queued "counter~x"))
       (log_of (getsetnx (JStr "x") (JStr "counter") [JNum 7] (Next 1) leader_node)) /\
    (forall other cb,
       In (Apply "counter" other cb)
          (log_of (getsetnx (JStr "x") (JStr "counter") [JNum 7] (Next 1) leader_node)) ->
       other = handler_args) /\
    head handler_args = Some (JStr "counter~x") /\
    head handler_args <> Some (JStr "x") /\
    handler_args <> JStr "x" :: [JNum 7].
Proof.
  exists [JStr "counter~x"; JStr "x"; JNum 7].
  split; [vm_compute; tauto|]. split; [|repeat split; discriminate].
  intros other cb H. vm_compute in H.
  destruct H as [H|[H|[H|[]]]]; try discriminate H. now inversion H.
Qed.

(** ** A peer that left *)

(** C7 (as amended): the handler of the 'left' event discards the cached
    connection of the peer (the entry becomes [null], so the next lookup
    finds no connection), drops the peer's id from [_remoteIds] and removes
    the peer from the gossip cluster.  It does nothing else: the connection
    objects keep the closures that wait for their 'connect', no callback is
    called or scheduled, and the pending operations stay pending. *)
Theorem C7_left_discards_connection_and_leaves_waiters (peer_id : string) (n : Node) :
  let r := _removePeerGossip peer_id n in
  result_of r = Normal tt /\
  log_of r = [GossipRemovePeer peer_id] /\
  _remotes (node_of r) !! peer_id = Some None /\
  remote_falsy (get_property (_remotes (node_of r)) (JStr peer_id)) = true /\
  _remoteIds (node_of r) = remove_first peer_id (_remoteIds n) /\
  peers (node_of r) = peers n /\
  callbackQueue (node_of r) = callbackQueue n /\
  cluster (node_of r) = cluster n.
Proof.
  cbv zeta. unfold _removePeerGossip, bind, modify, emit, result_of, log_of, node_of.
  cbn [fst snd set_remotes _remotes _remoteIds peers callbackQueue cluster app].
  repeat split.
  - apply lookup_insert_eq.
  - unfold get_property. cbn [ToString]. now rewrite lookup_insert_eq.
Qed.

(** C7, the claim as stated fails: on the follower whose forwarded call
    waits for the 'connect' of the connection to ["tcp://a"], the 'left'
    event of ["tcp://a"] calls no callback.  The closure stays registered
    on the discarded connection and the caller stays in the queue. *)
Lemma C7_counterexample :
  _remotes waiting_follower !! "tcp://a" = Some (Some 0) /\
  peers waiting_follower
  = [ {| client_methods := ["getsetnx"; "update"]; connected := false;
         connect_listeners :=
           [ {| invoke_method := "getsetnx";
                invoke_args := [JStr "x"; JStr "counter"];
                invoke_next := Queued "counter~x" |} ] |} ] /\
  callbackQueue waiting_follower !! "counter~x" = Some [Next 1] /\
  (let r := _removePeerGossip "tcp://a" waiting_follower in
   log_of r = [GossipRemovePeer "tcp://a"] /\
   count is_Call (log_of r) = 0 /\
   count is_error_report (log_of r) = 0 /\
   _remotes (node_of r) !! "tcp://a" = Some None /\
   peers (node_of r) = peers waiting_follower /\
   callbackQueue (node_of r) !! "counter~x" = Some [Next 1]).
Proof. cbv zeta. repeat split; vm_compute; reflexivity. Qed.

(** * Further properties of the node *)

(** ** Leadership *)

Lemma gossipLeader_run (leaderId : string) (n : Node) :
  _gossipLeader leaderId n
  = if strict_eq (stored n "leader") (JStr leaderId) then
      (Normal tt, n, [ClusterGet "leader"])
    else
      (Normal tt, set_cluster (<["leader" := JStr leaderId]> (cluster n)) n,
       [ClusterGet "leader"; ClusterSet "leader" (JStr leaderId)]).
Proof.
  unfold _gossipLeader, bind, cluster_get, cluster_set, emit, gets, modify, ret. cbn.
  fold (stored n "leader").
  destruct (strict_eq (stored n "leader") (JStr leaderId)); reflexivity.
Qed.

Lemma onLeader_run (n : Node) : _onLeader n = _gossipLeader (id n) n.
Proof.
  unfold _onLeader, bind, gets. destruct (_gossipLeader (id n) n) as [[r n'] l].
  reflexivity.
Qed.

Lemma onLeader_when_leader (k : nat) (n : Node) :
  is_leader n = true ->
  sequence (replicate k _onLeader) n = (Normal tt, n, replicate k (ClusterGet "leader")).
Proof.
  intros Hl. induction k as [|k IH]; [reflexivity|].
  cbn [replicate].
  rewrite (sequence_cons_normal _ _ n n [ClusterGet "leader"]).
  - now rewrite IH.
  - rewrite onLeader_run, gossipLeader_run. unfold is_leader in Hl. now rewrite Hl.
Qed.

Lemma count_replicate_reads (p : effect -> bool) (key : string) (k : nat) :
  p (ClusterGet key) = false -> count p (replicate k (ClusterGet key)) = 0.
Proof.
  intros H. unfold count. induction k as [|k IH]; [reflexivity|].
  cbn [replicate]. rewrite filter_cons_False; [exact IH|]. now rewrite H.
Qed.

(** X1: however often the 'leader' event fires on a node, the ["leader"]
    entry is written at most once - once when it did not already hold the
    node's id, never when it did - and afterwards it holds the node's id. *)
Theorem X1_onLeader_writes_leader_at_most_once (k : nat) (n : Node) :
  let r := sequence (replicate (S k) _onLeader) n in
  result_of r = Normal tt /\
  count is_ClusterSet (log_of r) = (if is_leader n then 0 else 1) /\
  stored (node_of r) "leader" = JStr (id n) /\
  is_leader (node_of r) = true.
Proof.
  cbv zeta.
  destruct (is_leader n) eqn:Hl.
  - rewrite (onLeader_when_leader (S k) n Hl).
    unfold result_of, log_of, node_of. cbn [fst snd].
    rewrite count_replicate_reads by reflexivity.
    repeat split; [|exact Hl].
    unfold is_leader in Hl. destruct (stored n "leader"); try discriminate Hl.
    cbn in Hl. apply String.eqb_eq in Hl. now subst.
  - set (n1 := set_cluster (<["leader" := JStr (id n)]> (cluster n)) n).
    assert (Hl1 : is_leader n1 = true).
    { unfold is_leader, n1. rewrite stored_set_same. cbn. apply String.eqb_refl. }
    cbn [replicate].
    rewrite (sequence_cons_normal _ _ n n1
               [ClusterGet "leader"; ClusterSet "leader" (JStr (id n))]).
    2:{ rewrite onLeader_run, gossipLeader_run. unfold is_leader in Hl. now rewrite Hl. }
    rewrite (onLeader_when_leader k n1 Hl1).
    unfold result_of, log_of, node_of. cbn [fst snd].
    rewrite count_app, count_replicate_reads by reflexivity.
    repeat split; [|exact Hl1].
    unfold n1. apply stored_set_same.
Qed.

(** ** Who writes the cluster *)

Lemma strict_eq_undefined (v : jsval) : strict_eq v JUndefined = true -> v = JUndefined.
Proof. destruct v; cbn; congruence. Qed.




(** What [update] does on a node that is not the leader. *)
Lemma update_follower_run (resourceId resourceType value : jsval) (next : callback)
    (n : Node) :
  is_leader n = false ->
  exists log,
    update resourceId resourceType value next n = (Normal tt, n, log) /\
    count is_ClusterSet log = 0.
Proof.
  intros Hl. destruct (bad_resourceId resourceId) eqn:Hid.
  - eexists. rewrite update_bad_id by exact Hid. split; reflexivity.
  - destruct (bad_resourceType n resourceType) eqn:Hty.
    + eexists. rewrite update_bad_type by assumption. split; reflexivity.
    + destruct (strict_eq value JUndefined) eqn:Hv.
      * apply strict_eq_undefined in Hv. subst value.
        eexists. rewrite update_undefined by assumption. split; reflexivity.
      * rewrite (update_valid _ _ value next n Hid Hty Hv). cbv zeta. rewrite Hl.
        destruct (strict_eq _ value); eexists; split; reflexivity.
Qed.

(** X3: on a node that is not the leader, [update] and [del] leave the
    node exactly as it was - the store is not written, no pending operation
    and no connection is created - whatever they are called with. *)
Theorem X3_follower_update_and_del_never_write
    (resourceId resourceType value : jsval) (next : callback) (n : Node) :
  is_leader n = false ->
  (result_of (update resourceId resourceType value next n) = Normal tt /\
   node_of (update resourceId resourceType value next n) = n /\
   count is_ClusterSet (log_of (update resourceId resourceType value next n)) = 0) /\
  (result_of (del resourceId resourceType next n) = Normal tt /\
   node_of (del resourceId resourceType next n) = n /\
   count is_ClusterSet (log_of (del resourceId resourceType next n)) = 0).
Proof.
  intros Hl. unfold del. split.
  - destruct (update_follower_run resourceId resourceType value next n Hl)
      as (log & -> & Hc). repeat split. exact Hc.
  - destruct (update_follower_run resourceId resourceType JNull next n Hl)
      as (log & -> & Hc). repeat split. exact Hc.
Qed.

Lemma X3_witness :
  is_leader follower_node = false /\
  node_of (update (JStr "x") (JStr "counter") (JNum 1) (Next 1) follower_node)
  = follower_node.
Proof.
  assert (Hl : is_leader follower_node = false) by (vm_compute; reflexivity).
  split; [exact Hl|].
  exact (proj1 (proj2 (proj1
    (X3_follower_update_and_del_never_write (JStr "x") (JStr "counter") (JNum 1)
       (Next 1) follower_node Hl)))).
Defined.

Lemma update_remoteIds (resourceId resourceType value : jsval) (next : callback)
    (n : Node) :
  _remoteIds (node_of (update resourceId resourceType value next n)) = _remoteIds n.
Proof.
  destruct (bad_resourceId resourceId) eqn:Hid.
  - now rewrite update_bad_id.
  - destruct (bad_resourceType n resourceType) eqn:Hty.
    + now rewrite update_bad_type.
    + destruct (strict_eq value JUndefined) eqn:Hv.
      * apply strict_eq_undefined in Hv. subst value. now rewrite update_undefined.
      * rewrite (update_valid _ _ value next n Hid Hty Hv). cbv zeta.
        destruct (strict_eq _ value); [reflexivity|].
        destruct (is_leader n); reflexivity.
Qed.

(** X4: [update] changes at most the entry of its own operation key:
    every other entry of the store keeps its value, and the ["leader"]
    entry is never touched, on any node and for any arguments. *)
Theorem X4_update_touches_only_its_key
    (resourceId resourceType value : jsval) (next : callback) (n : Node) :
  let r := update resourceId resourceType value next n in
  (forall k : string,
      k <> operationKey resourceType resourceId ->
      cluster (node_of r) !! k = cluster n !! k) /\
  stored (node_of r) "leader" = stored n "leader" /\
  callbackQueue (node_of r) = callbackQueue n /\
  _remotes (node_of r) = _remotes n /\
  peers (node_of r) = peers n.
Proof.
  cbv zeta. destruct (bad_resourceId resourceId) eqn:Hid.
  - rewrite update_bad_id by exact Hid. repeat split.
  - destruct (bad_resourceType n resourceType) eqn:Hty.
    + rewrite update_bad_type by assumption. repeat split.
    + destruct (strict_eq value JUndefined) eqn:Hv.
      * apply strict_eq_undefined in Hv. subst value.
        rewrite update_undefined by assumption. repeat split.
      * rewrite (update_valid _ _ value next n Hid Hty Hv). cbv zeta.
        destruct (strict_eq _ value); [repeat split|].
        destruct (is_leader n); [|repeat split].
        unfold node_of. cbn [fst snd].
        destruct (good_resourceId_string _ Hid) as (i & -> & _).
        destruct (good_resourceType_string _ _ Hty) as (t & ->).
        repeat split.
        -- intros k Hk. cbn. now rewrite lookup_insert_ne.
        -- apply stored_set_other. apply operationKey_not_leader.
Qed.

Lemma cached_strict_eq (s v : jsval) :
  strict_eq s v = true -> cached v = true -> cached s = true.
Proof. destruct s, v; cbn; congruence. Qed.

(** X5: on the leader, a [getsetnx] that follows an [update] of the same
    key with a value other than [undefined] and [null] is served from the
    store: its callback is scheduled with the value [update] found or
    wrote, no handler is applied and no pending operation is created. *)
Theorem X5_update_then_getsetnx_is_served
    (resourceId resourceType value : jsval) (args : list jsval)
    (next1 next2 : callback) (n : Node) :
  bad_resourceId resourceId = false ->
  bad_resourceType n resourceType = false ->
  cached value = true ->
  is_leader n = true ->
  let key := operationKey resourceType resourceId in
  let n1 := node_of (update resourceId resourceType value next1 n) in
  getsetnx resourceId resourceType args next2 n1
  = (Normal tt, n1,
     [ClusterGet key;
      SetImmediate next2
        [Val JNull;
         Val (if strict_eq (stored n key) value then stored n key else value)]]).
Proof.
  intros Hid Hty Hv Hl key n1.
  assert (Hvu : strict_eq value JUndefined = false).
  { destruct value; try reflexivity. discriminate Hv. }
  assert (Hn1 : n1 = if strict_eq (stored n key) value then n
                     else set_cluster (<[key := value]> (cluster n)) n).
  { unfold n1. rewrite (update_valid _ _ value next1 n Hid Hty Hvu). cbv zeta.
    fold key. rewrite Hl. now destruct (strict_eq (stored n key) value). }
  rewrite Hn1. destruct (strict_eq (stored n key) value) eqn:E.
  - rewrite (getsetnx_valid _ _ args next2 n Hid Hty). cbv zeta. fold key.
    now rewrite (cached_strict_eq _ _ E Hv).
  - assert (Hty' : bad_resourceType (set_cluster (<[key := value]> (cluster n)) n)
                     resourceType = false) by exact Hty.
    rewrite (getsetnx_valid _ _ args next2 _ Hid Hty'). cbv zeta. fold key.
    now rewrite stored_set_same, Hv.
Qed.

Lemma X5_witness :
  is_leader leader_node = true /\
  getsetnx (JStr "x") (JStr "counter") [] (Next 2)
    (node_of (update (JStr "x") (JStr "counter") (JNum 1) (Next 1) leader_node))
  = (Normal tt,
     node_of (update (JStr "x") (JStr "counter") (JNum 1) (Next 1) leader_node),
     [ClusterGet (operationKey (JStr "counter") (JStr "x"));
      SetImmediate (Next 2)
        [Val JNull;
         Val (if strict_eq (stored leader_node (operationKey (JStr "counter") (JStr "x")))
                   (JNum 1)
              then stored leader_node (operationKey (JStr "counter") (JStr "x"))
              else JNum 1)]]).
Proof.
  assert (Hid : bad_resourceId (JStr "x") = false) by reflexivity.
  assert (Hty : bad_resourceType leader_node (JStr "counter") = false)
    by (vm_compute; reflexivity).
  assert (Hv : cached (JNum 1) = true) by reflexivity.
  assert (Hl : is_leader leader_node = true) by (vm_compute; reflexivity).
  split; [exact Hl|].
  exact (X5_update_then_getsetnx_is_served (JStr "x") (JStr "counter") (JNum 1) []
           (Next 1) (Next 2) leader_node Hid Hty Hv Hl).
Defined.

(** ** The capability registry *)

Lemma get_property_insert_same {A : Type} (obj : gmap string A) (name : string) (v : A) :
  get_property (<[name := v]> obj) (JStr name) = Own v.
Proof. unfold get_property. cbn [ToString]. now rewrite lookup_insert_eq. Qed.

Lemma get_property_insert_other {A : Type} (obj : gmap string A) (name : string) (v : A)
    (key : jsval) :
  ToString key <> name ->
  get_property (<[name := v]> obj) key = get_property obj key.
Proof. intros H. unfold get_property. now rewrite lookup_insert_ne. Qed.

(** X6: attaching a name that the prototype does not define succeeds
    whatever [method] is: the name becomes an allowed resource type, every
    resource type allowed before stays allowed, and the prototype holds
    [method] under the name.  Attaching the name again throws and leaves the
    node as it was when [method] was anything but [undefined]; after an
    attach with [undefined] for [method] the name still counts as not
    defined and a second attach succeeds. *)
Theorem X6_attachRemoteCall_registers (name : string) (method : member) (n : Node) :
  prototype_defines n name = false ->
  let r := attachRemoteCall_with name method n in
  result_of r = Normal tt /\
  log_of r = [] /\
  bad_resourceType (node_of r) (JStr name) = false /\
  (forall t : jsval, bad_resourceType n t = false ->
                     bad_resourceType (node_of r) t = false) /\
  Node_prototype_member (node_of r) name = method /\
  (forall again : member,
      attachRemoteCall_with name again (node_of r)
      = match method with
        | Undefined_member =>
            (Normal tt,
             set_allowed (<[name := JBool true]> (_allowedRemoteCalls (node_of r)))
                         (<[name := again]> (prototype (node_of r))) (node_of r), [])
        | _ => (Throw (AlreadyDefined name), node_of r, [])
        end).
Proof.
  intros Hdef. cbv zeta.
  assert (Hr : attachRemoteCall_with name method n
    = (Normal tt,
       set_allowed (<[name := JBool true]> (_allowedRemoteCalls n))
                   (<[name := method]> (prototype n)) n, [])).
  { unfold attachRemoteCall_with, bind, gets, modify. now rewrite Hdef. }
  rewrite Hr. unfold result_of, log_of, node_of. cbn [fst snd].
  assert (Hm : Node_prototype_member
                 (set_allowed (<[name := JBool true]> (_allowedRemoteCalls n))
                              (<[name := method]> (prototype n)) n) name = method).
  { unfold Node_prototype_member. cbn [prototype set_allowed].
    now rewrite lookup_insert_eq. }
  split; [reflexivity|]. split; [reflexivity|]. split; [|split; [|split]].
  - unfold bad_resourceType, not_allowed_lookup.
    cbn [is_string negb orb _allowedRemoteCalls set_allowed].
    now rewrite get_property_insert_same.
  - intros t Ht. unfold bad_resourceType, not_allowed_lookup in *.
    cbn [_allowedRemoteCalls set_allowed].
    destruct (is_string t); [|discriminate Ht]. cbn [negb orb] in *.
    destruct (decide (ToString t = name)) as [E|E].
    + destruct t; try (cbn in E; subst; now rewrite get_property_insert_same).
      all: unfold get_property; rewrite E, lookup_insert_eq; reflexivity.
    + now rewrite get_property_insert_other.
  - exact Hm.
  - intros again. unfold attachRemoteCall_with, bind, gets, throw, modify, prototype_defines.
    rewrite Hm. now destruct method.
Qed.

Lemma X6_witness :
  prototype_defines (new_Node "tcp://a" no_meta) "counter" = false /\
  bad_resourceType
    (node_of (attachRemoteCall_with "counter" Function_member (new_Node "tcp://a" no_meta)))
    (JStr "counter") = false.
Proof.
  assert (H : prototype_defines (new_Node "tcp://a" no_meta) "counter" = false)
    by (vm_compute; reflexivity).
  split; [exact H|].
  exact (proj1 (proj2 (proj2
    (X6_attachRemoteCall_registers "counter" Function_member
       (new_Node "tcp://a" no_meta) H)))).
Defined.

(** ** Connections to peers *)

Lemma remote_existing (node : jsval) (r : nat) (n : Node) :
  get_property (_remotes n) node = Own (Some r) ->
  _remote node n = (Normal (Own (Some r)), n, []).
Proof.
  intros H. unfold _remote, bind, peerOnline, gets, ret. now rewrite H.
Qed.

Lemma remote_unresolved (node : jsval) (n : Node) :
  remote_falsy (get_property (_remotes n) node) = true ->
  peerMeta n node = None ->
  _remote node n = (Normal (get_property (_remotes n) node), n, []).
Proof.
  intros Hf Hm. unfold _remote, bind, peerOnline, gets, ret. now rewrite Hf, Hm.
Qed.

(** The node after [_remote] opened a connection for [node]. *)
Lemma remote_opens (node hostname port : jsval) (n : Node) :
  remote_falsy (get_property (_remotes n) node) = true ->
  peerMeta n node = Some (hostname, port) ->
  _remote node n
  = (Normal (Own (Some (length (peers n)))),
     set_remotes (<[ToString node := Some (length (peers n))]> (_remotes n))
       (_remoteIds n)
       (peers n ++ [ {| client_methods := _remoteCallMethods n; connected := false;
                        connect_listeners := [] |} ]) n,
     [TransportConnect (length (peers n)) (_remoteCallMethods n) hostname port]).
Proof.
  intros Hf Hm.
  unfold _remote, bind, peerOnline, new_Peer, gets, modify, emit, ret.
  cbn. rewrite Hf. cbn. rewrite Hm. reflexivity.
Qed.

(** X7: a connection is opened when it is first needed and then reused.
    For a peer with no cached connection whose metadata the membership
    provider knows, the first [_remote] opens one connection and returns
    it; the second returns the same connection and opens nothing. *)
Theorem X7_remote_opens_once_and_reuses (node hostname port : jsval) (n : Node) :
  remote_falsy (get_property (_remotes n) node) = true ->
  peerMeta n node = Some (hostname, port) ->
  let first := _remote node n in
  let second := _remote node (node_of first) in
  result_of first = Normal (Own (Some (length (peers n)))) /\
  log_of first = [TransportConnect (length (peers n)) (_remoteCallMethods n) hostname port] /\
  peers (node_of first) !! length (peers n)
  = Some {| client_methods := _remoteCallMethods n; connected := false;
            connect_listeners := [] |} /\
  second = (Normal (Own (Some (length (peers n)))), node_of first, []).
Proof.
  intros Hf Hm. cbv zeta. rewrite (remote_opens node hostname port n Hf Hm).
  unfold result_of, log_of, node_of. cbn [fst snd].
  split; [reflexivity|]. split; [reflexivity|]. split.
  - cbn. rewrite lookup_app_r by lia. now rewrite Nat.sub_diag.
  - apply remote_existing. unfold get_property. cbn.
    now rewrite lookup_insert_eq.
Qed.

Lemma X7_witness :
  peerMeta follower_node (JStr "tcp://a") = Some (JStr "a.local", JNum 5201) /\
  log_of (_remote (JStr "tcp://a") follower_node)
  = [TransportConnect (length (peers follower_node)) (_remoteCallMethods follower_node)
       (JStr "a.local") (JNum 5201)].
Proof.
  assert (Hf : remote_falsy (get_property (_remotes follower_node) (JStr "tcp://a")) = true)
    by (vm_compute; reflexivity).
  assert (Hm : peerMeta follower_node (JStr "tcp://a") = Some (JStr "a.local", JNum 5201))
    by (vm_compute; reflexivity).
  split; [exact Hm|].
  exact (proj1 (proj2
    (X7_remote_opens_once_and_reuses (JStr "tcp://a") (JStr "a.local") (JNum 5201)
       follower_node Hf Hm))).
Defined.

(** ** Forwarding to the leader *)

Lemma remoteCall_unresolved (node : jsval) (method : string) (args : list jsval)
    (next : callback) (n : Node) :
  remote_falsy (get_property (_remotes n) node) = true ->
  peerMeta n node = None ->
  _remoteCall node method args next n = call next [Err (NoRemoteMetadata node)] n.
Proof.
  intros Hf Hm. unfold _remoteCall, bind.
  rewrite (remote_unresolved node n Hf Hm), Hf.
  now destruct (call next [Err (NoRemoteMetadata node)] n) as [[r n2] l2].
Qed.

Lemma remoteCall_connected (node : jsval) (method : string) (args : list jsval)
    (next : callback) (r : nat) (p : Peer) (n : Node) :
  get_property (_remotes n) node = Own (Some r) ->
  peers n !! r = Some p ->
  connected p = true ->
  _remoteCall node method args next n = invoke r p method args next n.
Proof.
  intros Hr Hp Hc. unfold _remoteCall, bind, gets.
  rewrite (remote_existing node r n Hr). cbn. rewrite Hp, Hc.
  now destruct (invoke r p method args next n) as [[r' n2] l2].
Qed.

Lemma remoteCall_connecting (node : jsval) (method : string) (args : list jsval)
    (next : callback) (r : nat) (p : Peer) (n : Node) :
  get_property (_remotes n) node = Own (Some r) ->
  peers n !! r = Some p ->
  connected p = false ->
  _remoteCall node method args next n
  = (Normal tt,
     set_remotes (_remotes n) (_remoteIds n)
       (<[r := {| client_methods := client_methods p; connected := connected p;
                  connect_listeners :=
                    connect_listeners p
                    ++ [ {| invoke_method := method; invoke_args := args;
                            invoke_next := next |} ] |}]> (peers n)) n,
     []).
Proof.
  intros Hr Hp Hc. unfold _remoteCall, bind, gets, once_connect, modify.
  rewrite (remote_existing node r n Hr). cbn. now rewrite Hp, Hc.
Qed.

Lemma count_calls (p : effect -> bool) (args : list argument) (ws : list callback) :
  (forall w, p (Call w args) = false) ->
  count p (map (fun w => Call w args) ws) = 0.
Proof.
  intros H. unfold count. induction ws as [|w ws IH]; [reflexivity|].
  cbn [map]. rewrite filter_cons_False; [exact IH|]. now rewrite H.
Qed.

(** X8: a forwarded [getsetnx] whose leader cannot be resolved fails for
    every coalesced caller.  On a node that is not the leader, with no
    cached connection to the node named by the ["leader"] entry and no
    metadata for it, the remote call that the first of the callers
    scheduled calls every caller, in arrival order, with the error about
    the missing metadata; nothing is sent, no connection is created and the
    key is no longer pending. *)
Theorem X8_unresolved_leader_fails_every_caller
    (resourceId resourceType : jsval) (c : caller) (callers : list caller) (n : Node) :
  bad_resourceId resourceId = false ->
  bad_resourceType n resourceType = false ->
  cached (stored n (operationKey resourceType resourceId)) = false ->
  callbackQueue n !! operationKey resourceType resourceId = None ->
  is_leader n = false ->
  remote_falsy (get_property (_remotes n) (stored n "leader")) = true ->
  peerMeta n (stored n "leader") = None ->
  let key := operationKey resourceType resourceId in
  let leader := stored n "leader" in
  let r1 := getsetnx_all resourceId resourceType (c :: callers) n in
  let r2 := _remoteCall leader "getsetnx" ([resourceId; resourceType] ++ c.1)
              (Queued key) (node_of r1) in
  In (SetImmediateRemoteCall leader "getsetnx" ([resourceId; resourceType] ++ c.1)
        (Queued key)) (log_of r1) /\
  result_of r2 = Normal tt /\
  log_of r2 = map (fun w => Call w [Err (NoRemoteMetadata leader)]) (map snd (c :: callers)) /\
  count is_rpc (log_of r2) = 0 /\
  callbackQueue (node_of r2) !! key = None /\
  peers (node_of r2) = peers n /\
  _remotes (node_of r2) = _remotes n.
Proof.
  intros Hid Hty Hc Hq Hl Hf Hm key leader r1 r2.
  set (n1 := set_callbackQueue (<[key := map snd (c :: callers)]> (callbackQueue n)) n).
  assert (E1 : r1 = (Normal tt, n1,
     [ClusterGet key; ClusterGet "leader";
      SetImmediateRemoteCall leader "getsetnx" ([resourceId; resourceType] ++ c.1)
        (Queued key)] ++ map (fun _ => ClusterGet key) callers)).
  { unfold r1. rewrite (getsetnx_all_first _ _ c callers n Hid Hty Hc Hq).
    fold key leader n1. now rewrite Hl. }
  assert (Hpending : callbackQueue n1 !! key = Some (map snd (c :: callers)))
    by apply lookup_insert_eq.
  assert (E2 : r2 = (Normal tt, set_callbackQueue (delete key (callbackQueue n1)) n1,
     map (fun w => Call w [Err (NoRemoteMetadata leader)]) (map snd (c :: callers)))).
  { unfold r2. rewrite E1. change (node_of (Normal tt, n1, _)) with n1.
    rewrite (remoteCall_unresolved leader "getsetnx" _ (Queued key) n1 Hf Hm).
    apply (call_Queued key _ _ n1 Hpending). }
  clearbody r2. clearbody r1. subst r1 r2.
  unfold result_of, log_of, node_of. cbn [fst snd].
  split; [cbn; tauto|]. split; [reflexivity|]. split; [reflexivity|].
  split; [now apply count_calls|]. split; [|split; reflexivity].
  cbn. apply lookup_delete_eq.
Qed.

Lemma X8_witness :
  peerMeta (new_Node "tcp://b" no_meta) (stored (new_Node "tcp://b" no_meta) "leader")
  = None /\
  log_of (_remoteCall (stored (new_Node "tcp://b" no_meta) "leader") "getsetnx"
            ([JStr "x"; JStr "update"] ++ (([], Next 1) : caller).1)
            (Queued (operationKey (JStr "update") (JStr "x")))
            (node_of (getsetnx_all (JStr "x") (JStr "update")
                        (([], Next 1) :: [([], Next 2)]) (new_Node "tcp://b" no_meta))))
  = map (fun w => Call w [Err (NoRemoteMetadata
                                 (stored (new_Node "tcp://b" no_meta) "leader"))])
        (map snd ((([], Next 1) : caller) :: [([], Next 2)])).
Proof.
  assert (Hid : bad_resourceId (JStr "x") = false) by reflexivity.
  assert (Hty : bad_resourceType (new_Node "tcp://b" no_meta) (JStr "update") = false)
    by (vm_compute; reflexivity).
  assert (Hc : cached (stored (new_Node "tcp://b" no_meta)
                         (operationKey (JStr "update") (JStr "x"))) = false)
    by (vm_compute; reflexivity).
  assert (Hq : callbackQueue (new_Node "tcp://b" no_meta)
                 !! operationKey (JStr "update") (JStr "x") = None)
    by (vm_compute; reflexivity).
  assert (Hl : is_leader (new_Node "tcp://b" no_meta) = false)
    by (vm_compute; reflexivity).
  assert (Hf : remote_falsy (get_property (_remotes (new_Node "tcp://b" no_meta))
                               (stored (new_Node "tcp://b" no_meta) "leader")) = true)
    by (vm_compute; reflexivity).
  assert (Hm : peerMeta (new_Node "tcp://b" no_meta)
                 (stored (new_Node "tcp://b" no_meta) "leader") = None)
    by reflexivity.
  split; [exact Hm|].
  exact (proj1 (proj2 (proj2
    (X8_unresolved_leader_fails_every_caller (JStr "x") (JStr "update")
       ([], Next 1) [([], Next 2)] (new_Node "tcp://b" no_meta)
       Hid Hty Hc Hq Hl Hf Hm)))).
Defined.

(** X9: over an established connection the coalesced callers of a key
    cost one RPC.  On a node that is not the leader and holds a connected
    client for the node named by the ["leader"] entry that exposes
    [getsetnx], the scheduled remote call invokes the client once, with the
    resource id, the resource type and the first caller's payload, and with
    the queue's function as callback; the callers stay pending until that
    function is called. *)
Theorem X9_connected_leader_gets_one_rpc
    (resourceId resourceType : jsval) (c : caller) (callers : list caller)
    (r : nat) (p : Peer) (n : Node) :
  bad_resourceId resourceId = false ->
  bad_resourceType n resourceType = false ->
  cached (stored n (operationKey resourceType resourceId)) = false ->
  callbackQueue n !! operationKey resourceType resourceId = None ->
  is_leader n = false ->
  get_property (_remotes n) (stored n "leader") = Own (Some r) ->
  peers n !! r = Some p ->
  connected p = true ->
  "getsetnx" ∈ client_methods p ->
  let key := operationKey resourceType resourceId in
  let leader := stored n "leader" in
  let r1 := getsetnx_all resourceId resourceType (c :: callers) n in
  let r2 := _remoteCall leader "getsetnx" ([resourceId; resourceType] ++ c.1)
              (Queued key) (node_of r1) in
  r2 = (Normal tt, node_of r1,
        [ClientApply r "getsetnx" ([resourceId; resourceType] ++ c.1) (Queued key)]) /\
  count is_ClientApply (log_of r1 ++ log_of r2) = 1 /\
  count is_Call (log_of r1 ++ log_of r2) = 0 /\
  callbackQueue (node_of r2) !! key = Some (map snd (c :: callers)).
Proof.
  intros Hid Hty Hc Hq Hl Hr Hp Hcon Hmeth key leader r1 r2.
  set (n1 := set_callbackQueue (<[key := map snd (c :: callers)]> (callbackQueue n)) n).
  assert (E1 : r1 = (Normal tt, n1,
     [ClusterGet key; ClusterGet "leader";
      SetImmediateRemoteCall leader "getsetnx" ([resourceId; resourceType] ++ c.1)
        (Queued key)] ++ map (fun _ => ClusterGet key) callers)).
  { unfold r1. rewrite (getsetnx_all_first _ _ c callers n Hid Hty Hc Hq).
    fold key leader n1. now rewrite Hl. }
  assert (E2 : r2 = (Normal tt, n1,
     [ClientApply r "getsetnx" ([resourceId; resourceType] ++ c.1) (Queued key)])).
  { unfold r2. rewrite E1. change (node_of (Normal tt, n1, _)) with n1.
    rewrite (remoteCall_connected leader "getsetnx" _ (Queued key) r p n1 Hr Hp Hcon).
    unfold invoke. now rewrite bool_decide_eq_true_2 by exact Hmeth. }
  clearbody r2. clearbody r1. subst r1 r2.
  unfold log_of, node_of. cbn [fst snd].
  split; [reflexivity|].
  rewrite !count_app, !count_reads by reflexivity.
  split; [reflexivity|]. split; [reflexivity|]. apply lookup_insert_eq.
Qed.

Lemma X9_witness :
  connected {| client_methods := ["getsetnx"; "update"]; connected := true;
               connect_listeners := [] |} = true /\
  count is_ClientApply
    (log_of (getsetnx_all (JStr "x") (JStr "counter")
               (([JNum 1], Next 1) :: [([], Next 2)]) connected_follower)
     ++ log_of (_remoteCall (stored connected_follower "leader") "getsetnx"
                  ([JStr "x"; JStr "counter"] ++ (([JNum 1], Next 1) : caller).1)
                  (Queued (operationKey (JStr "counter") (JStr "x")))
                  (node_of (getsetnx_all (JStr "x") (JStr "counter")
                              (([JNum 1], Next 1) :: [([], Next 2)]) connected_follower))))
  = 1.
Proof.
  assert (Hid : bad_resourceId (JStr "x") = false) by reflexivity.
  assert (Hty : bad_resourceType connected_follower (JStr "counter") = false)
    by (vm_compute; reflexivity).
  assert (Hc : cached (stored connected_follower
                         (operationKey (JStr "counter") (JStr "x"))) = false)
    by (vm_compute; reflexivity).
  assert (Hq : callbackQueue connected_follower
                 !! operationKey (JStr "counter") (JStr "x") = None)
    by (vm_compute; reflexivity).
  assert (Hl : is_leader connected_follower = false) by (vm_compute; reflexivity).
  assert (Hr : get_property (_remotes connected_follower)
                 (stored connected_follower "leader") = Own (Some 0))
    by (vm_compute; reflexivity).
  assert (Hp : peers connected_follower !! 0
               = Some {| client_methods := ["getsetnx"; "update"]; connected := true;
                         connect_listeners := [] |}) by reflexivity.
  assert (Hcon : connected {| client_methods := ["getsetnx"; "update"];
                              connected := true; connect_listeners := [] |} = true)
    by reflexivity.
  assert (Hmeth : "getsetnx" ∈ client_methods
                    {| client_methods := ["getsetnx"; "update"]; connected := true;
                       connect_listeners := [] |}) by (cbn; apply list_elem_of_here).
  split; [exact Hcon|].
  exact (proj1 (proj2
    (X9_connected_leader_gets_one_rpc (JStr "x") (JStr "counter")
       ([JNum 1], Next 1) [([], Next 2)] 0 _ connected_follower
       Hid Hty Hc Hq Hl Hr Hp Hcon Hmeth))).
Defined.

(** ** Forwarded updates *)

(** X10: [update] is not coalesced.  On a node that is not the leader,
    every one of a row of calls with the same valid arguments and a value
    the store does not hold schedules a remote call of its own for the
    leader, with its own callback; the node is not changed. *)
Theorem X10_follower_updates_are_not_coalesced
    (resourceId resourceType value : jsval) (nexts : list callback) (n : Node) :
  bad_resourceId resourceId = false ->
  bad_resourceType n resourceType = false ->
  strict_eq value JUndefined = false ->
  strict_eq (stored n (operationKey resourceType resourceId)) value = false ->
  is_leader n = false ->
  let key := operationKey resourceType resourceId in
  let r := sequence (map (update resourceId resourceType value) nexts) n in
  r = (Normal tt, n,
       concat (map (fun next =>
                 [ClusterGet key; ClusterGet "leader";
                  SetImmediateRemoteCall (stored n "leader") "update"
                    [resourceId; resourceType; value] next]) nexts)) /\
  count is_execution (log_of r) = length nexts.
Proof.
  intros Hid Hty Hv Hs Hl key r.
  assert (Hr : r = (Normal tt, n,
       concat (map (fun next =>
                 [ClusterGet key; ClusterGet "leader";
                  SetImmediateRemoteCall (stored n "leader") "update"
                    [resourceId; resourceType; value] next]) nexts))).
  { unfold r. induction nexts as [|next nexts IH]; [reflexivity|].
    cbn [map concat].
    rewrite (sequence_cons_normal _ _ n n
      [ClusterGet key; ClusterGet "leader";
       SetImmediateRemoteCall (stored n "leader") "update"
         [resourceId; resourceType; value] next]).
    - now rewrite IH.
    - rewrite (update_valid _ _ value next n Hid Hty Hv). cbv zeta.
      now rewrite Hs, Hl. }
  split; [exact Hr|]. rewrite Hr. unfold log_of. cbn [snd]. clear.
  induction nexts as [|next nexts IH]; [reflexivity|].
  cbn [map concat length]. rewrite count_app, IH. reflexivity.
Qed.

Lemma X10_witness :
  is_leader follower_node = false /\
  count is_execution
    (log_of (sequence (map (update (JStr "x") (JStr "counter") (JNum 1))
                         [Next 1; Next 2; Next 3]) follower_node))
  = length [Next 1; Next 2; Next 3].
Proof.
  assert (Hid : bad_resourceId (JStr "x") = false) by reflexivity.
  assert (Hty : bad_resourceType follower_node (JStr "counter") = false)
    by (vm_compute; reflexivity).
  assert (Hv : strict_eq (JNum 1) JUndefined = false) by reflexivity.
  assert (Hs : strict_eq (stored follower_node (operationKey (JStr "counter") (JStr "x")))
                 (JNum 1) = false) by (vm_compute; reflexivity).
  assert (Hl : is_leader follower_node = false) by (vm_compute; reflexivity).
  split; [exact Hl|].
  exact (proj2
    (X10_follower_updates_are_not_coalesced (JStr "x") (JStr "counter") (JNum 1)
       [Next 1; Next 2; Next 3] follower_node Hid Hty Hv Hs Hl)).
Defined.

(** ** Calls that wait for a connection *)

(** The calls made while a connection is being established, as closures. *)
Lemma remoteCalls_connecting (node : jsval) (r : nat) (calls : list invoke_closure) :
  forall (p : Peer) (n : Node),
  get_property (_remotes n) node = Own (Some r) ->
  peers n !! r = Some p ->
  connected p = false ->
  sequence (map (fun c => _remoteCall node (invoke_method c) (invoke_args c)
                            (invoke_next c)) calls) n
  = (Normal tt,
     set_remotes (_remotes n) (_remoteIds n)
       (<[r := {| client_methods := client_methods p; connected := false;
                  connect_listeners := connect_listeners p ++ calls |}]> (peers n)) n,
     []).
Proof.
  induction calls as [|c calls IH]; intros p n Hr Hp Hc.
  - cbn. rewrite app_nil_r. destruct p as [cm co cl]. cbn in Hc. subst co. cbn.
    rewrite list_insert_id by exact Hp. now destruct n.
  - destruct c as [m a nx]. cbn [map invoke_method invoke_args invoke_next].
    set (p1 := {| client_methods := client_methods p; connected := connected p;
                  connect_listeners :=
                    connect_listeners p
                    ++ [ {| invoke_method := m; invoke_args := a;
                            invoke_next := nx |} ] |}).
    set (n1 := set_remotes (_remotes n) (_remoteIds n) (<[r := p1]> (peers n)) n).
    rewrite (sequence_cons_normal _ _ n n1 []).
    2:{ apply (remoteCall_connecting node m a nx r p n Hr Hp Hc). }
    assert (Hp1 : peers n1 !! r = Some p1).
    { cbn. apply list_lookup_insert_eq. now apply lookup_lt_Some in Hp. }
    rewrite (IH p1 n1 Hr Hp1 Hc).
    unfold result_of, node_of, log_of. cbn [fst snd]. cbn.
    now rewrite list_insert_insert_eq, <- app_assoc.
Qed.

(** X11: while the connection to a peer is being established, remote
    calls for that peer wait on it.  Each call adds its closure behind the
    ones already waiting, in the order of the calls; nothing is sent, no
    callback is called, and the rest of the node is unchanged. *)
Theorem X11_calls_wait_for_connect_in_order
    (node : jsval) (r : nat) (p : Peer) (calls : list invoke_closure) (n : Node) :
  get_property (_remotes n) node = Own (Some r) ->
  peers n !! r = Some p ->
  connected p = false ->
  let run := sequence (map (fun c => _remoteCall node (invoke_method c) (invoke_args c)
                                       (invoke_next c)) calls) n in
  result_of run = Normal tt /\
  log_of run = [] /\
  peers (node_of run) !! r
  = Some {| client_methods := client_methods p; connected := false;
            connect_listeners := connect_listeners p ++ calls |} /\
  length (peers (node_of run)) = length (peers n) /\
  _remotes (node_of run) = _remotes n /\
  callbackQueue (node_of run) = callbackQueue n /\
  cluster (node_of run) = cluster n.
Proof.
  intros Hr Hp Hc. cbv zeta.
  rewrite (remoteCalls_connecting node r calls p n Hr Hp Hc).
  unfold result_of, log_of, node_of. cbn [fst snd]. cbn.
  repeat split.
  - apply list_lookup_insert_eq. now apply lookup_lt_Some in Hp.
  - apply length_insert.
Qed.

Lemma X11_witness :
  get_property (_remotes waiting_follower) (JStr "tcp://a") = Own (Some 0) /\
  log_of (sequence (map (fun c => _remoteCall (JStr "tcp://a") (invoke_method c)
                                    (invoke_args c) (invoke_next c))
                      [ {| invoke_method := "update";
                           invoke_args := [JStr "y"; JStr "counter"; JNum 2];
                           invoke_next := Next 5 |} ]) waiting_follower) = [].
Proof.
  assert (Hr : get_property (_remotes waiting_follower) (JStr "tcp://a") = Own (Some 0))
    by (vm_compute; reflexivity).
  assert (Hp : peers waiting_follower !! 0
               = Some {| client_methods := ["getsetnx"; "update"]; connected := false;
                         connect_listeners :=
                           [ {| invoke_method := "getsetnx";
                                invoke_args := [JStr "x"; JStr "counter"];
                                invoke_next := Queued "counter~x" |} ] |})
    by (vm_compute; reflexivity).
  split; [exact Hr|].
  exact (proj1 (proj2
    (X11_calls_wait_for_connect_in_order (JStr "tcp://a") 0 _
       [ {| invoke_method := "update";
            invoke_args := [JStr "y"; JStr "counter"; JNum 2];
            invoke_next := Next 5 |} ] waiting_follower Hr Hp eq_refl))).
Defined.

(** ** A peer that comes back *)

Lemma remoteCall_opens (node hostname port : jsval) (method : string)
    (args : list jsval) (next : callback) (n : Node) :
  remote_falsy (get_property (_remotes n) node) = true ->
  peerMeta n node = Some (hostname, port) ->
  _remoteCall node method args next n
  = (Normal tt,
     set_remotes (<[ToString node := Some (length (peers n))]> (_remotes n))
       (_remoteIds n)
       (peers n ++ [ {| client_methods := _remoteCallMethods n; connected := false;
                        connect_listeners :=
                          [ {| invoke_method := method; invoke_args := args;
                               invoke_next := next |} ] |} ]) n,
     [TransportConnect (length (peers n)) (_remoteCallMethods n) hostname port]).
Proof.
  intros Hf Hm. unfold _remoteCall, bind, gets, once_connect, modify.
  rewrite (remote_opens node hostname port n Hf Hm). cbn.
  rewrite lookup_app_r by lia. rewrite Nat.sub_diag. cbn.
  rewrite insert_app_r_alt by lia. rewrite Nat.sub_diag. cbn.
  reflexivity.
Qed.

(** X12: a peer that left and is called again gets a new connection.
    After the 'left' event of a peer whose metadata the membership provider
    still has, a remote call for the peer opens a connection of its own and
    waits on it; the connections that existed before, the discarded one
    with its waiters among them, are left as they were. *)
Theorem X12_call_after_left_opens_new_connection
    (peer_id : string) (hostname port : jsval) (method : string) (args : list jsval)
    (next : callback) (n : Node) :
  peerMeta n (JStr peer_id) = Some (hostname, port) ->
  let n1 := node_of (_removePeerGossip peer_id n) in
  let r := _remoteCall (JStr peer_id) method args next n1 in
  result_of r = Normal tt /\
  log_of r = [TransportConnect (length (peers n)) (_remoteCallMethods n) hostname port] /\
  _remotes (node_of r) !! peer_id = Some (Some (length (peers n))) /\
  peers (node_of r)
  = peers n ++ [ {| client_methods := _remoteCallMethods n; connected := false;
                    connect_listeners :=
                      [ {| invoke_method := method; invoke_args := args;
                           invoke_next := next |} ] |} ].
Proof.
  intros Hm n1 r.
  assert (Hf : remote_falsy (get_property (_remotes n1) (JStr peer_id)) = true).
  { unfold n1, _removePeerGossip, bind, modify, emit, node_of, get_property. cbn.
    now rewrite lookup_insert_eq. }
  assert (Hm1 : peerMeta n1 (JStr peer_id) = Some (hostname, port)) by exact Hm.
  unfold r. rewrite (remoteCall_opens _ hostname port method args next n1 Hf Hm1).
  unfold result_of, log_of, node_of. cbn [fst snd]. cbn.
  repeat split. apply lookup_insert_eq.
Qed.

Lemma X12_witness :
  peerMeta waiting_follower (JStr "tcp://a") = Some (JStr "a.local", JNum 5201) /\
  log_of (_remoteCall (JStr "tcp://a") "getsetnx" [JStr "y"; JStr "counter"] (Next 9)
            (node_of (_removePeerGossip "tcp://a" waiting_follower)))
  = [TransportConnect (length (peers waiting_follower))
       (_remoteCallMethods waiting_follower) (JStr "a.local") (JNum 5201)].
Proof.
  assert (Hm : peerMeta waiting_follower (JStr "tcp://a")
               = Some (JStr "a.local", JNum 5201)) by (vm_compute; reflexivity).
  split; [exact Hm|].
  exact (proj1 (proj2
    (X12_call_after_left_opens_new_connection "tcp://a" (JStr "a.local") (JNum 5201)
       "getsetnx" [JStr "y"; JStr "counter"] (Next 9) waiting_follower Hm))).
Defined.

(** ** The list of remote ids *)

Lemma sequence_invariant (I : Node -> Prop) (ms : list (M unit)) :
  Forall (fun m => forall n, I n -> I (node_of (m n))) ms ->
  forall n, I n -> I (node_of (sequence ms n)).
Proof.
  induction 1 as [|m ms Hm _ IH]; intros n Hn; [exact Hn|].
  rewrite sequence_cons. unfold node_of at 1. cbn [fst snd].
  apply IH, Hm, Hn.
Qed.

Lemma remoteIds_call (f : callback) (args : list argument) (n : Node) :
  _remoteIds (node_of (call f args n)) = _remoteIds n.
Proof.
  destruct f as [f|key]; [reflexivity|].
  cbn [call]. unfold queued_callback, bind, gets, modify.
  destruct (callbackQueue n !! key) as [ws|]; [|reflexivity].
  now rewrite emit_all_run.
Qed.

Lemma remoteIds_getsetnx (resourceId resourceType : jsval) (args : list jsval)
    (next : callback) (n : Node) :
  _remoteIds (node_of (getsetnx resourceId resourceType args next n)) = _remoteIds n.
Proof.
  destruct (bad_resourceId resourceId) eqn:Hid.
  - now rewrite getsetnx_bad_id.
  - destruct (bad_resourceType n resourceType) eqn:Hty.
    + now rewrite getsetnx_bad_type.
    + rewrite (getsetnx_valid _ _ args next n Hid Hty). cbv zeta.
      unfold enqueue.
      destruct (cached _); [reflexivity|].
      destruct (callbackQueue n !! _); [reflexivity|].
      destruct (is_leader n); reflexivity.
Qed.

Lemma remoteIds_remoteCall (node : jsval) (method : string) (args : list jsval)
    (next : callback) (n : Node) :
  _remoteIds (node_of (_remoteCall node method args next n)) = _remoteIds n.
Proof.
  destruct (remote_falsy (get_property (_remotes n) node)) eqn:Hf.
  - destruct (peerMeta n node) as [[h p]|] eqn:Hm.
    + now rewrite (remoteCall_opens node h p method args next n Hf Hm).
    + rewrite (remoteCall_unresolved node method args next n Hf Hm).
      apply remoteIds_call.
  - destruct (get_property (_remotes n) node) as [[r|]| |] eqn:Hr; try discriminate Hf.
    + destruct (peers n !! r) as [p|] eqn:Hp.
      * destruct (connected p) eqn:Hc.
        -- rewrite (remoteCall_connected node method args next r p n Hr Hp Hc).
           unfold invoke. destruct (bool_decide _); [reflexivity|].
           apply remoteIds_call.
        -- now rewrite (remoteCall_connecting node method args next r p n Hr Hp Hc).
      * unfold _remoteCall, bind, gets, throw.
        rewrite (remote_existing node r n Hr). cbn. now rewrite Hp.
    + unfold _remoteCall, _remote, bind, peerOnline, gets, ret, throw. now rewrite Hr.
Qed.

Lemma remoteIds_run_op (o : operation) (n : Node) :
  _remoteIds n = [] -> _remoteIds (node_of (run_op o n)) = [].
Proof.
  intros H. destruct o; cbn [run_op].
  - now rewrite remoteIds_getsetnx.
  - now rewrite update_remoteIds.
  - unfold del. now rewrite update_remoteIds.
  - now rewrite remoteIds_remoteCall.
  - unfold _removePeerGossip, bind, modify, emit, node_of. cbn. now rewrite H.
  - rewrite onLeader_run, gossipLeader_run.
    now destruct (strict_eq (stored n "leader") (JStr (id n))).
  - now rewrite remoteIds_call.
  - unfold attachRemoteCall, attachRemoteCall_with, bind, gets, modify, throw.
    now destruct (prototype_defines n name).
Qed.

(** X13: nothing ever adds to [_remoteIds].  On a node whose list of
    remote ids is empty, as the constructor leaves it, the list is still
    empty after any sequence of calls, remote calls, callbacks, membership
    events and registrations, so that [randomPeerOrSelf] answers with the
    node itself whatever the sample picks. *)
Theorem X13_remoteIds_stay_empty (ops : list operation) (pick : nat) (n : Node) :
  _remoteIds n = [] ->
  let n' := node_of (run_ops ops n) in
  _remoteIds n' = [] /\
  randomPeerOrSelf pick n' = (Normal Self, n', []).
Proof.
  intros H n'.
  assert (H' : _remoteIds n' = []).
  { unfold n', run_ops.
    apply (sequence_invariant (fun m => _remoteIds m = [])); [|exact H].
    apply Forall_forall. intros m Hm. apply list_elem_of_In in Hm.
    apply in_map_iff in Hm as (o & <- & _). apply remoteIds_run_op. }
  split; [exact H'|].
  unfold randomPeerOrSelf, bind, gets, ret, sample. rewrite H'. reflexivity.
Qed.

Lemma X13_witness :
  _remoteIds (new_Node "tcp://b" meta_of_a) = [] /\
  _remoteIds
    (node_of (run_ops [ OpAttach "counter";
                        OpGetsetnx (JStr "x") (JStr "counter") [] (Next 1);
                        OpRemoteCall (JStr "tcp://a") "getsetnx"
                          [JStr "x"; JStr "counter"] (Queued "counter~x");
                        OpLeft "tcp://a";
                        OpLeader ]
                (new_Node "tcp://b" meta_of_a))) = [].
Proof.
  split; [reflexivity|].
  exact (proj1
    (X13_remoteIds_stay_empty
       [ OpAttach "counter";
         OpGetsetnx (JStr "x") (JStr "counter") [] (Next 1);
         OpRemoteCall (JStr "tcp://a") "getsetnx"
           [JStr "x"; JStr "counter"] (Queued "counter~x");
         OpLeft "tcp://a";
         OpLeader ] 0 (new_Node "tcp://b" meta_of_a) eq_refl)).
Defined.

(** ** After the resolution *)

(** X14: the router does not remember a result.  Once the pending
    operation of a key has been resolved, and as long as nothing was stored
    under the key, the next caller of [getsetnx] for the key is the first
    caller again: it creates a new pending operation and triggers a new
    execution. *)
Theorem X14_resolved_key_executes_again
    (resourceId resourceType : jsval) (c : caller) (callers : list caller)
    (result : list argument) (args : list jsval) (next : callback) (n : Node) :
  bad_resourceId resourceId = false ->
  bad_resourceType n resourceType = false ->
  cached (stored n (operationKey resourceType resourceId)) = false ->
  callbackQueue n !! operationKey resourceType resourceId = None ->
  let key := operationKey resourceType resourceId in
  let r1 := getsetnx_all resourceId resourceType (c :: callers) n in
  let r2 := call (Queued key) result (node_of r1) in
  let r3 := getsetnx resourceId resourceType args next (node_of r2) in
  count is_execution (log_of r1) = 1 /\
  count is_execution (log_of r3) = 1 /\
  callbackQueue (node_of r3) !! key = Some [next].
Proof.
  intros Hid Hty Hc Hq key r1 r2 r3.
  set (n1 := set_callbackQueue (<[key := map snd (c :: callers)]> (callbackQueue n)) n).
  assert (E1 : node_of r1 = n1 /\ count is_execution (log_of r1) = 1).
  { unfold r1. rewrite (getsetnx_all_first _ _ c callers n Hid Hty Hc Hq).
    fold key n1. unfold node_of, log_of. cbn [fst snd]. split; [reflexivity|].
    rewrite count_app, count_reads by reflexivity. now destruct (is_leader n). }
  destruct E1 as [E1 E1c].
  set (n2 := set_callbackQueue (delete key (callbackQueue n1)) n1).
  assert (E2 : node_of r2 = n2).
  { unfold r2. rewrite E1. erewrite call_Queued; [reflexivity|].
    apply lookup_insert_eq. }
  assert (Hty2 : bad_resourceType n2 resourceType = false) by exact Hty.
  assert (Hc2 : cached (stored n2 key) = false) by exact Hc.
  assert (Hq2 : callbackQueue n2 !! key = None) by apply lookup_delete_eq.
  split; [exact E1c|].
  unfold r3. rewrite E2. rewrite (getsetnx_valid _ _ args next n2 Hid Hty2).
  cbv zeta. fold key. rewrite Hc2, Hq2. unfold enqueue. rewrite Hq2.
  destruct (is_leader n2); unfold node_of, log_of; cbn [fst snd];
    (split; [reflexivity|]); apply lookup_insert_eq.
Qed.

Lemma X14_witness :
  bad_resourceId (JStr "x") = false /\
  count is_execution
    (log_of (getsetnx (JStr "x") (JStr "counter") [] (Next 3)
       (node_of (call (Queued (operationKey (JStr "counter") (JStr "x")))
                   [Val JNull; Val (JNum 1)]
                   (node_of (getsetnx_all (JStr "x") (JStr "counter")
                               ((([], Next 1) : caller) :: [([], Next 2)])
                               leader_node)))))) = 1.
Proof.
  assert (Hid : bad_resourceId (JStr "x") = false) by reflexivity.
  assert (Hty : bad_resourceType leader_node (JStr "counter") = false)
    by (vm_compute; reflexivity).
  assert (Hc : cached (stored leader_node (operationKey (JStr "counter") (JStr "x")))
               = false) by (vm_compute; reflexivity).
  assert (Hq : callbackQueue leader_node !! operationKey (JStr "counter") (JStr "x")
               = None) by (vm_compute; reflexivity).
  split; [exact Hid|].
  exact (proj1 (proj2
    (X14_resolved_key_executes_again (JStr "x") (JStr "counter") ([], Next 1)
       [([], Next 2)] [Val JNull; Val (JNum 1)] [] (Next 3) leader_node
       Hid Hty Hc Hq))).
Defined.

(** ** Coalescing, from the callers to the leader *)






